(** * md_to_pdf_converter: the Markdown-to-PDF batch pipeline

    A shallow embedding of [scripts/md_to_pdf_converter.py] and the proofs of
    its orchestration properties.

    The script is a thin driver around two external tools and the file
    system, so the embedding makes both explicit:
    - the file system is a finite map from absolute paths to nodes;
    - running an external command is an oracle [exec] (a parameter of the
      development) that returns what [subprocess.run] would return or raise
      and the file system the command leaves behind;
    - every function of the script is a computation in a small monad that
      threads the world and distinguishes a returned value, a raised Python
      exception and [sys.exit].

    Console output ([print]) is not modelled.  The model has no symbolic
    links, and [..] inside a path is resolved lexically. *)

From stdpp Require Import gmap strings list fin_maps.
From Stdlib Require Import ZArith Ascii String DecimalString.

Open Scope string_scope.
Open Scope list_scope.

(** ** Python strings *)

Module Str.

(** [s[i:]] *)
Fixpoint drop (i : nat) (s : string) : string :=
  match i, s with
  | O, _ => s
  | S _, EmptyString => EmptyString
  | S i', String _ r => drop i' r
  end.

(** [s[:i]] *)
Fixpoint take (i : nat) (s : string) : string :=
  match i, s with
  | O, _ => EmptyString
  | S _, EmptyString => EmptyString
  | S i', String c r => String c (take i' r)
  end.

(** [s.rfind(c)]: the highest index of [c] in [s], or [-1]. *)
Fixpoint rfind (c : ascii) (s : string) : Z :=
  match s with
  | EmptyString => (-1)%Z
  | String d r =>
      let i := rfind c r in
      if (0 <=? i)%Z then (i + 1)%Z
      else if Ascii.eqb d c then 0%Z else (-1)%Z
  end.

(** [c in s] *)
Fixpoint mem (c : ascii) (s : string) : bool :=
  match s with
  | EmptyString => false
  | String d r => Ascii.eqb d c || mem c r
  end.

(** [s.split(c)] *)
Fixpoint split (c : ascii) (s : string) : list string :=
  match s with
  | EmptyString => [EmptyString]
  | String d r =>
      if Ascii.eqb d c then EmptyString :: split c r
      else match split c r with
           | [] => [String d EmptyString]
           | h :: t => String d h :: t
           end
  end.

(** [sep.join(l)] *)
Fixpoint join (sep : string) (l : list string) : string :=
  match l with
  | [] => EmptyString
  | [x] => x
  | x :: r => x +:+ sep +:+ join sep r
  end.

(** [s.startswith(c)] for a single character *)
Definition startswith (c : ascii) (s : string) : bool :=
  match s with
  | String d _ => Ascii.eqb d c
  | EmptyString => false
  end.

(** [s.zfill(w)] for a string of digits *)
Definition zfill (w : nat) (s : string) : string :=
  String.concat "" (replicate (w - String.length s) "0") +:+ s.

(** ['%d' % n] *)
Definition of_nat (n : nat) : string :=
  NilEmpty.string_of_uint (Nat.to_uint n).



End Str.

(** ** [fnmatch]: shell patterns with [*] and [?]

    Bracket expressions are left out: the patterns of the script, [*.md]
    and [*.pdf], have none.  Matching is case-sensitive, as on POSIX. *)

Fixpoint fnmatch (pat : string) : string -> bool :=
  match pat with
  | EmptyString => fun s => match s with EmptyString => true | _ => false end
  | String "*" p =>
      fix star (s : string) : bool :=
        fnmatch p s || match s with
                       | EmptyString => false
                       | String _ r => star r
                       end
  | String "?" p =>
      fun s => match s with
               | EmptyString => false
               | String _ r => fnmatch p r
               end
  | String c p =>
      fun s => match s with
               | EmptyString => false
               | String d r => Ascii.eqb c d && fnmatch p r
               end
  end.

(** ** [pathlib]: pure paths

    [main] resolves its input directory first, so every path the script
    handles is absolute; a path is the list of its components below the
    root. *)

Definition Path := list string.

Module PurePath.

(** [p.name] *)
Definition name (p : Path) : string := List.last p "".

(** [p.parent] *)
Definition parent (p : Path) : Path := List.removelast p.

(** [str(p)] *)
Definition str (p : Path) : string := "/" +:+ Str.join "/" p.

(** The components of a path given as a string: empty components and [.]
    are dropped. *)
Definition parse_parts (s : string) : list string :=
  List.filter (fun x => negb (String.eqb x "") && negb (String.eqb x "."))
              (Str.split "/" s).

(** [p / s]: an absolute [s] replaces [p]. *)
Definition joinpath (p : Path) (s : string) : Path :=
  if Str.startswith "/" s then parse_parts s else p ++ parse_parts s.

(** [PurePath.suffix] on the final component: from the last dot on, unless
    that dot starts or ends the name. *)
Definition suffix (name : string) : string :=
  let i := Str.rfind "." name in
  if (0 <? i)%Z && (i <? Z.of_nat (String.length name) - 1)%Z
  then Str.drop (Z.to_nat i) name
  else "".

(** [PurePath.stem] on the final component *)
Definition stem (name : string) : string :=
  let i := Str.rfind "." name in
  if (0 <? i)%Z && (i <? Z.of_nat (String.length name) - 1)%Z
  then Str.take (Z.to_nat i) name
  else name.

(** [p.with_suffix(suffix)] for a well-formed [suffix]; [None] stands for
    the [ValueError] raised on a path with an empty name. *)
Definition with_suffix (p : Path) (suffix' : string) : option Path :=
  let name := name p in
  if String.eqb name "" then None
  else
    let old_suffix := suffix name in
    let name' :=
      if String.eqb old_suffix "" then name +:+ suffix'
      else Str.take (String.length name - String.length old_suffix) name
             +:+ suffix' in
    Some (parent p ++ [name']).

End PurePath.

(** ** The file system *)

Inductive Content :=
| Blob (data : string)
| ZipArchive (members : list string).

Inductive Node :=
| Dir
| File (content : Content).

Abbreviation FS := (gmap (list string) Node).

Module Fs.

Fixpoint normalize (acc : list string) (ps : list string) : list string :=
  match ps with
  | [] => rev acc
  | p :: r =>
      if String.eqb p ".." then normalize (tail acc) r
      else normalize (p :: acc) r
  end.

(** The place a path denotes: its components with every [..] resolved. *)
Definition key (p : Path) : list string := normalize [] p.

(** The node at a resolved place; the root is always a directory. *)
Definition at_key (fs : FS) (k : list string) : option Node :=
  match k with
  | [] => Some Dir
  | _ => fs !! k
  end.

Definition node (fs : FS) (p : Path) : option Node := at_key fs (key p).

(** [Some n] when [k] is the entry named [n] of the directory [d]. *)
Definition entry_in (d k : list string) : option string :=
  match last k with
  | Some n => if decide (k = d ++ [n]) then Some n else None
  | None => None
  end.

(** [list(dir.glob(pat))] for a pattern without a directory separator:
    the entries of [dir] whose name matches, none if [dir] is not a
    directory. *)
Definition glob (fs : FS) (dir : Path) (pat : string) : list Path :=
  match node fs dir with
  | Some Dir =>
      omap (fun kv : list string * Node =>
              match entry_in (key dir) kv.1 with
              | Some n => if fnmatch pat n then Some (dir ++ [n]) else None
              | None => None
              end)
           (map_to_list fs)
  | _ => []
  end.

End Fs.

(** ** The world, Python exceptions and the monad of the script *)

Record datetime := {
  year : nat; month : nat; day : nat;
  hour : nat; minute : nat; second : nat
}.

(** [t.strftime('%Y%m%d_%H%M%S')], each field zero-padded to its width as
    the library documents it. *)
Definition strftime_Ymd_HMS (t : datetime) : string :=
  Str.zfill 4 (Str.of_nat (year t)) +:+ Str.zfill 2 (Str.of_nat (month t))
  +:+ Str.zfill 2 (Str.of_nat (day t)) +:+ "_"
  +:+ Str.zfill 2 (Str.of_nat (hour t)) +:+ Str.zfill 2 (Str.of_nat (minute t))
  +:+ Str.zfill 2 (Str.of_nat (second t)).

Inductive Exn :=
| FileNotFoundError
| FileExistsError
| NotADirectoryError
| IsADirectoryError
| PermissionError
| ValueError
| TimeoutExpired
| OtherException (text : string).

(** What [subprocess.run] gives back: a completed process with its exit
    status and captured standard error, or an exception. *)
Inductive RunResult :=
| CompletedProcess (returncode : Z) (stderr : string)
| RunRaises (e : Exn).

Record World := {
  fs : FS;                          (* the file system *)
  launched : list (list string);    (* the commands run so far, oldest first *)
  clock : datetime                  (* what [datetime.now()] reads *)
}.

Inductive Result (A : Type) :=
| Ok (a : A)
| Raise (e : Exn)
| SysExit (code : Z).
Arguments Ok {A} a.
Arguments Raise {A} e.
Arguments SysExit {A} code.

Definition M (A : Type) : Type := World -> Result A * World.

Definition ret {A} (a : A) : M A := fun w => (Ok a, w).

Definition bind {A B} (m : M A) (k : A -> M B) : M B :=
  fun w =>
    match m w with
    | (Ok a, w') => k a w'
    | (Raise e, w') => (Raise e, w')
    | (SysExit c, w') => (SysExit c, w')
    end.

Definition raise {A} (e : Exn) : M A := fun w => (Raise e, w).

Definition sys_exit {A} (code : Z) : M A := fun w => (SysExit code, w).

Notation "'let*' x ':=' m 'in' k" := (bind m (fun x => k))
  (at level 10, x pattern, m at level 100, k at level 200).

(** [try: m except ...: h]; [h e = None] when no clause catches [e]. *)
Definition try_except {A} (m : M A) (h : Exn -> option (M A)) : M A :=
  fun w =>
    match m w with
    | (Raise e, w') =>
        match h e with
        | Some k => k w'
        | None => (Raise e, w')
        end
    | r => r
    end.

(** [for x in xs: s = body(x, s)] *)
Fixpoint for_in {A S} (xs : list A) (body : A -> S -> M S) (s : S) : M S :=
  match xs with
  | [] => ret s
  | x :: rest => let* s' := body x s in for_in rest body s'
  end.

(** The exit status the shell sees: an uncaught exception ends the
    interpreter with status 1. *)
Definition exit_status {A} (r : Result A) : Z :=
  match r with
  | Ok _ => 0
  | Raise _ => 1
  | SysExit c => c
  end.

Definition set_fs (f : FS) (w : World) : World :=
  {| fs := f; launched := launched w; clock := clock w |}.

(** *** [pathlib] and [zipfile] on the world *)

Definition path_exists (p : Path) : M bool :=
  fun w => (Ok (bool_decide (is_Some (Fs.node (fs w) p))), w).

Definition path_is_dir (p : Path) : M bool :=
  fun w => (Ok (match Fs.node (fs w) p with Some Dir => true | _ => false end), w).

Definition path_glob (p : Path) (pat : string) : M (list Path) :=
  fun w => (Ok (Fs.glob (fs w) p pat), w).

(** [p.stat()]; the result is not used beyond its existence. *)
Definition path_stat (p : Path) : M unit :=
  fun w =>
    match Fs.node (fs w) p with
    | Some _ => (Ok tt, w)
    | None => (Raise FileNotFoundError, w)
    end.

(** Creating an entry at place [k]: its parent has to be a directory. *)
Definition create_at (k : list string) (n : Node) : M unit :=
  fun w =>
    match Fs.at_key (fs w) (removelast k) with
    | Some Dir => (Ok tt, set_fs (<[k := n]> (fs w)) w)
    | Some (File _) => (Raise NotADirectoryError, w)
    | None => (Raise FileNotFoundError, w)
    end.

(** [p.mkdir(exist_ok=True)] *)
Definition path_mkdir_exist_ok (p : Path) : M unit :=
  fun w =>
    match Fs.node (fs w) p with
    | Some Dir => (Ok tt, w)
    | Some (File _) => (Raise FileExistsError, w)
    | None => create_at (Fs.key p) Dir w
    end.

Record ZipFile := { filename : Path; namelist : list string }.

(** [zipfile.ZipFile(file, 'w', ZIP_DEFLATED)]: the file is created or
    truncated.  The archive on disk is kept up to date by every write, so
    leaving the [with] block changes nothing more. *)
Definition ZipFile_open (file : Path) : M ZipFile :=
  fun w =>
    match Fs.node (fs w) file with
    | Some Dir => (Raise IsADirectoryError, w)
    | _ =>
        (let* _ := create_at (Fs.key file) (File (ZipArchive [])) in
         ret {| filename := file; namelist := [] |}) w
    end.

(** [zipf.write(src, arcname)]: a directory is stored under [arcname/]. *)
Definition ZipFile_write (zipf : ZipFile) (src : Path) (arcname : string)
  : M ZipFile :=
  fun w =>
    match Fs.node (fs w) src with
    | None => (Raise FileNotFoundError, w)
    | Some n =>
        let member := match n with Dir => arcname +:+ "/" | File _ => arcname end in
        let names := namelist zipf ++ [member] in
        (Ok {| filename := filename zipf; namelist := names |},
         set_fs (<[Fs.key (filename zipf) := File (ZipArchive names)]> (fs w)) w)
    end.

Definition datetime_now : M datetime := fun w => (Ok (clock w), w).

(** ** The script *)

Section Script.

(** The behaviour of the external commands: what running [cmd] with the
    given timeout (in seconds) on a file system returns or raises, and the
    file system it leaves. *)
Variable exec : list string -> option nat -> FS -> RunResult * FS.

(** [Path(s).expanduser().resolve()]: the absolute path a command-line
    argument denotes (it depends on the home and working directories). *)
Variable resolve : string -> Path.

(** [subprocess.run(cmd, timeout=timeout)] *)
Definition subprocess_run (cmd : list string) (timeout : option nat)
  : M (Z * string) :=
  fun w =>
    let '(r, fs') := exec cmd timeout (fs w) in
    let w' := {| fs := fs'; launched := launched w ++ [cmd]; clock := clock w |} in
    match r with
    | CompletedProcess returncode stderr => (Ok (returncode, stderr), w')
    | RunRaises e => (Raise e, w')
    end.

Definition required : list (string * string) :=
  [("pandoc", "pandoc --version"); ("pdflatex", "pdflatex --version")].

(** The body of the loop of [check_dependencies] (lines 22-26). *)
Definition check_tool (item : string * string) (missing : list string)
  : M (list string) :=
  let '(tool, cmd) := item in
  try_except
    (let* _ := subprocess_run (String.words cmd) None in ret missing)
    (fun e => match e with
              | FileNotFoundError => Some (ret (missing ++ [tool]))
              | _ => None
              end).

Definition check_dependencies : M bool :=
  let* missing := for_in required check_tool [] in
  match missing with
  | _ :: _ => ret false
  | [] => ret true
  end.

(** The command line of lines 47-60. *)
Definition pandoc_cmd (md_path pdf_path : Path) : list string :=
  [ "pandoc";
    PurePath.str md_path;
    "-o"; PurePath.str pdf_path;
    "--pdf-engine=pdflatex";
    "--variable"; "geometry:margin=1in";
    "--variable"; "fontsize=11pt";
    "--variable"; "colorlinks=true";
    "--variable"; "linkcolor=blue";
    "--toc";
    "--toc-depth=3";
    "--number-sections";
    "-V"; "papersize=a4" ].

(** Line 42: [output_dir / md_path.with_suffix('.pdf').name] *)
Definition pdf_path_of (md_path output_dir : Path) : option Path :=
  match PurePath.with_suffix md_path ".pdf" with
  | Some p => Some (PurePath.joinpath output_dir (PurePath.name p))
  | None => None
  end.

Definition convert_md_to_pdf (md_file output_dir : Path) : M bool :=
  let md_path := md_file in
  match pdf_path_of md_path output_dir with
  | None => raise ValueError
  | Some pdf_path =>
      let cmd := pandoc_cmd md_path pdf_path in
      try_except
        (let* result := subprocess_run cmd (Some 120) in
         if negb (result.1 =? 0)%Z then ret false else ret true)
        (fun e => match e with
                  | TimeoutExpired => Some (ret false)
                  | _ => Some (ret false)
                  end)
  end.

(** The body of the loop of [create_zip_archive] (lines 95-97). *)
Definition add_pdf (pdf_file : Path) (zipf : ZipFile) : M ZipFile :=
  ZipFile_write zipf pdf_file (PurePath.name pdf_file).

Definition create_zip_archive (pdf_dir output_zip : Path) : M bool :=
  let* pdf_files := path_glob pdf_dir "*.pdf" in
  match pdf_files with
  | [] => ret false
  | _ :: _ =>
      let* zipf := ZipFile_open output_zip in
      let* _ := for_in pdf_files add_pdf zipf in
      ret true
  end.

(** The body of the conversion loop of [main] (lines 153-157) on the pair
    [(success_count, failed_files)]. *)
Definition convert_one (output_dir : Path) (md_file : Path)
    (acc : nat * list string) : M (nat * list string) :=
  let '(success_count, failed_files) := acc in
  let* ok := convert_md_to_pdf md_file output_dir in
  if ok then ret (success_count + 1, failed_files)
  else ret (success_count, failed_files ++ [PurePath.name md_file]).

Definition main (argv : list string) : M unit :=
  if (List.length argv <? 2)%nat then sys_exit 1
  else
    let* deps := check_dependencies in
    if negb deps then sys_exit 1
    else
      let input_dir := resolve (nth 1 argv "") in
      let* output_zip_name :=
        (if (3 <=? List.length argv)%nat then ret (nth 2 argv "")
         else
           let* now := datetime_now in
           let timestamp := strftime_Ymd_HMS now in
           ret ("phd_documents_" +:+ timestamp +:+ ".zip")) in
      let* present := path_exists input_dir in
      if negb present then sys_exit 1
      else
        let* isdir := path_is_dir input_dir in
        if negb isdir then sys_exit 1
        else
          let* md_files := path_glob input_dir "*.md" in
          match md_files with
          | [] => sys_exit 1
          | _ :: _ =>
              let output_dir := PurePath.joinpath input_dir "pdf_output" in
              let* _ := path_mkdir_exist_ok output_dir in
              let* (success_count, failed_files) :=
                for_in md_files (convert_one output_dir) (0, []) in
              let output_zip := PurePath.joinpath input_dir output_zip_name in
              let* archived := create_zip_archive output_dir output_zip in
              if archived then
                let* _ := path_stat output_zip in
                ret tt
              else sys_exit 1
          end.

End Script.

(** ** Vocabulary of the statements

    Nothing below is part of the script: these definitions name the things
    its properties are about. *)

(** A pattern without special characters. *)
Definition literal (p : string) : Prop :=
  Str.mem "*" p = false /\ Str.mem "?" p = false.

(** A path whose name matches [*.md], as every discovered file does. *)
Definition markdown (p : Path) : Prop := fnmatch "*.md" (PurePath.name p) = true.

(** A relation between the world before and the world after that every
    run of a computation satisfies. *)
Definition stable {A} (R : World -> World -> Prop) (m : M A) : Prop :=
  forall w, R w (m w).2.

(** A computation that never calls [sys.exit]. *)
Definition never_exits {A} (m : M A) : Prop :=
  forall w c, (m w).1 <> SysExit c.

(** The world after [cmd] has run and left the file system [f]. *)
Definition ran (cmd : list string) (f : FS) (w : World) : World :=
  {| fs := f; launched := launched w ++ [cmd]; clock := clock w |}.

Section Vocabulary.

Variable exec : list string -> option nat -> FS -> RunResult * FS.
Variable resolve : string -> Path.

(** A path component: non-empty, without a separator. *)
Definition component (n : string) : Prop := n <> "" /\ Str.mem "/" n = false.




(** Lines 119-123: the name of the archive. *)
Definition archive_name (argv : list string) (now : datetime) : string :=
  if (3 <=? List.length argv)%nat then nth 2 argv ""
  else "phd_documents_" +:+ strftime_Ymd_HMS now +:+ ".zip".

(** Lines 117 and 167: where the archive goes. *)
Definition archive_path (argv : list string) (now : datetime) : Path :=
  PurePath.joinpath (resolve (nth 1 argv "")) (archive_name argv now).

(** What invoking each required tool in turn gives, whether or not the
    checker gets to see it. *)
Fixpoint probes (items : list (string * string)) (f : FS)
  : list (string * RunResult) :=
  match items with
  | [] => []
  | (tool, cmd) :: rest =>
      let '(r, f') := exec (String.words cmd) None f in
      (tool, r) :: probes rest f'
  end.

(** Invoking the tool raised the command-not-found condition. *)
Definition not_found (r : RunResult) : bool :=
  match r with
  | RunRaises FileNotFoundError => true
  | _ => false
  end.

(** The invocation started and ran to completion, with whatever status. *)
Definition started (r : RunResult) : bool :=
  match r with
  | CompletedProcess _ _ => true
  | RunRaises _ => false
  end.

(** The command [convert_md_to_pdf] runs for [md_file]. *)
Definition conversion_cmd (output_dir md_file : Path) : list string :=
  match pdf_path_of md_file output_dir with
  | Some pdf_path => pandoc_cmd md_file pdf_path
  | None => []
  end.

(** The outcome of converting each file in turn, each conversion starting
    in the world the previous one left. *)
Fixpoint conversions (output_dir : Path) (md_files : list Path) (w : World)
  : list (Path * Result bool) :=
  match md_files with
  | [] => []
  | md_file :: rest =>
      let '(r, w') := convert_md_to_pdf exec md_file output_dir w in
      (md_file, r) :: conversions output_dir rest w'
  end.

Definition failed (c : Path * Result bool) : bool :=
  match c.2 with
  | Ok true => false
  | _ => true
  end.

(** The name a file system entry gets in an archive. *)
Definition member_name (f : FS) (p : Path) : string :=
  match Fs.node f p with
  | Some Dir => PurePath.name p +:+ "/"
  | _ => PurePath.name p
  end.

(** Lines 168-173: what is left of [main] once the conversion loop is
    over. *)
Definition archive_stage (output_dir output_zip : Path) : M unit :=
  let* archived := create_zip_archive output_dir output_zip in
  if archived then
    let* _ := path_stat output_zip in
    ret tt
  else sys_exit 1.

(** Running [cmd] leaves the entry at place [k] as it is. *)
Definition quiet (cmd : list string) (k : list string) : Prop :=
  forall timeout f, (exec cmd timeout f).2 !! k = f !! k.

(** From [w] to [w'] commands were launched and nothing else touched the
    entry at place [k]: it is as it was if those commands are quiet. *)
Definition untouched (k : list string) (w w' : World) : Prop :=
  exists cmds,
    launched w' = launched w ++ cmds
    /\ ((forall cmd, cmd ∈ cmds -> quiet cmd k) -> fs w' !! k = fs w !! k).

(** The run of [main] on [argv] from [w] gets through argument parsing,
    the dependency check, the validation of the input directory, file
    discovery, the creation of the output directory and the conversion
    loop, and is about to call [create_zip_archive output_dir output_zip]
    in world [w3] with the given [success_count] and [failed_files]. *)
Definition reaches_archive (argv : list string) (w : World)
    (output_dir output_zip : Path) (success_count : nat)
    (failed_files : list string) (w3 : World) : Prop :=
  exists w1 w2,
    let input_dir := resolve (nth 1 argv "") in
    let md_files := Fs.glob (fs w1) input_dir "*.md" in
    (2 <= List.length argv)%nat
    /\ check_dependencies exec w = (Ok true, w1)
    /\ Fs.node (fs w1) input_dir = Some Dir
    /\ md_files <> []
    /\ output_dir = PurePath.joinpath input_dir "pdf_output"
    /\ path_mkdir_exist_ok output_dir w1 = (Ok tt, w2)
    /\ for_in md_files (convert_one exec output_dir) (0%nat, []) w2
       = (Ok (success_count, failed_files), w3)
    /\ output_zip = archive_path argv (clock w1).

End Vocabulary.

(** ** A simulated tool chain and sample worlds

    Used to run the script on concrete inputs. *)

Module Sample.

(** Both tools are installed.  [pandoc file -o out ...] fails on a source
    named [broken.md], times out on [slow.md] and writes its output file
    otherwise; every other command succeeds and touches nothing. *)
Definition tools (cmd : list string) (timeout : option nat) (f : FS)
  : RunResult * FS :=
  match cmd with
  | prog :: src :: flag :: dst :: _ =>
      if String.eqb prog "pandoc" && String.eqb flag "-o" then
        let n := PurePath.name (PurePath.parse_parts src) in
        if String.eqb n "broken.md" then (CompletedProcess 1 "pandoc: error", f)
        else if String.eqb n "slow.md" then (RunRaises TimeoutExpired, f)
        else (CompletedProcess 0 "",
              <[Fs.key (PurePath.parse_parts dst) := File (Blob "%PDF")]> f)
      else (CompletedProcess 0 "", f)
  | _ => (CompletedProcess 0 "", f)
  end.

(** [pandoc] is installed but cannot be executed; [pdflatex] is fine. *)
Definition no_permission (cmd : list string) (timeout : option nat) (f : FS)
  : RunResult * FS :=
  match cmd with
  | "pandoc" :: _ => (RunRaises PermissionError, f)
  | _ => (CompletedProcess 0 "", f)
  end.

(** [pdflatex] is not installed. *)
Definition no_pdflatex (cmd : list string) (timeout : option nat) (f : FS)
  : RunResult * FS :=
  match cmd with
  | "pdflatex" :: _ => (RunRaises FileNotFoundError, f)
  | _ => (CompletedProcess 0 "", f)
  end.

(** [pandoc] is installed but broken: it starts and exits with status 3. *)
Definition broken_pandoc (cmd : list string) (timeout : option nat) (f : FS)
  : RunResult * FS :=
  match cmd with
  | "pandoc" :: _ => (CompletedProcess 3 "pandoc: cannot load library", f)
  | _ => (CompletedProcess 0 "", f)
  end.

Definition resolve (s : string) : Path := PurePath.parse_parts s.

Definition noon : datetime :=
  {| year := 2024; month := 3; day := 7; hour := 12; minute := 5; second := 9 |}.

Definition world (f : FS) : World :=
  {| fs := f; launched := []; clock := noon |}.

Definition phd : Path := ["home"; "phd"].

(** [/home/phd] with two Markdown files, one of them not convertible. *)
Definition fs_two : FS :=
  list_to_map
    [ (["home"], Dir); (phd, Dir);
      (phd ++ ["a.md"], File (Blob "# A"));
      (phd ++ ["broken.md"], File (Blob "# B")) ].

(** The same with an output directory left by an earlier run. *)
Definition fs_stray : FS :=
  <[phd ++ ["pdf_output"] := Dir]>
    (<[phd ++ ["pdf_output"; "stray.pdf"] := File (Blob "old")]> fs_two).

(** [/home/phd] whose only Markdown file is not convertible. *)
Definition fs_broken : FS :=
  list_to_map
    [ (["home"], Dir); (phd, Dir);
      (phd ++ ["broken.md"], File (Blob "# B")) ].

(** [/home/phd] without Markdown files. *)
Definition fs_empty : FS :=
  list_to_map
    [ (["home"], Dir); (phd, Dir);
      (phd ++ ["notes.txt"], File (Blob "n")) ].

(** The worlds a run on file system [f] goes through: after the
    dependency check, after the creation of the output directory and after
    the conversion loop. *)
Definition after_check
    (exec : list string -> option nat -> FS -> RunResult * FS) (f : FS) : World :=
  (check_dependencies exec (world f)).2.

Definition after_mkdir
    (exec : list string -> option nat -> FS -> RunResult * FS) (f : FS) : World :=
  (path_mkdir_exist_ok (phd ++ ["pdf_output"]) (after_check exec f)).2.

Definition after_loop
    (exec : list string -> option nat -> FS -> RunResult * FS) (f : FS) : World :=
  (for_in (Fs.glob (fs (after_check exec f)) phd "*.md")
          (convert_one exec (phd ++ ["pdf_output"])) (0%nat, [])
          (after_mkdir exec f)).2.

End Sample.

(** Discharges [reaches_archive] on a sample file system by running each
    stage. *)
Ltac sample_reach f :=
  exists (Sample.after_check Sample.tools f), (Sample.after_mkdir Sample.tools f);
  cbv zeta;
  repeat match goal with
         | |- _ /\ _ => split
         | |- (_ <= _)%nat => simpl; lia
         | |- _ <> _ => vm_compute; discriminate
         | |- _ = _ => vm_compute; reflexivity
         end.

(** ** Vocabulary of the further properties *)

(** A computation whose every call of [sys.exit] carries status 1. *)
Definition exits_only_1 {A} (m : M A) : Prop :=
  forall w c, (m w).1 = SysExit c -> c = 1%Z.


(** The two probes of the dependency checker, as command lines. *)
Definition probe_cmds : list (list string) :=
  [["pandoc"; "--version"]; ["pdflatex"; "--version"]].





(** More sample worlds. *)
Module Cases.

(** [/home/phd] where the name of the output directory is taken by a
    regular file. *)
Definition fs_blocked : FS :=
  <[Sample.phd ++ ["pdf_output"] := File (Blob "not a directory")]> Sample.fs_two.



End Cases.

(** * Properties *)

(** ** The model on small inputs *)

Example split_ex : Str.split "/" "a//b/./c" = ["a"; ""; "b"; "."; "c"].
Proof. reflexivity. Qed.

Example fnmatch_ex :
  fnmatch "*.md" "notes.md" = true /\ fnmatch "*.md" ".md" = true /\
  fnmatch "*.md" "notes.md.bak" = false /\ fnmatch "*.md" "a.md.md" = true.
Proof. repeat split. Qed.

Example with_suffix_ex :
  PurePath.with_suffix ["home"; "notes.v2.md"] ".pdf" = Some ["home"; "notes.v2.pdf"]
  /\ PurePath.with_suffix ["home"; ".md"] ".pdf" = Some ["home"; ".md.pdf"]
  /\ PurePath.with_suffix [] ".pdf" = None.
Proof. repeat split. Qed.

Example joinpath_ex :
  PurePath.joinpath ["home"; "phd"] "out.zip" = ["home"; "phd"; "out.zip"]
  /\ PurePath.joinpath ["home"; "phd"] "/tmp/out.zip" = ["tmp"; "out.zip"]
  /\ PurePath.joinpath ["home"; "phd"] "../out.zip" = ["home"; "phd"; ".."; "out.zip"].
Proof. repeat split. Qed.

Example stem_ex :
  PurePath.stem "notes.v2.md" = "notes.v2" /\ PurePath.stem ".md" = ".md"
  /\ PurePath.stem "a." = "a." /\ PurePath.suffix "notes.v2.md" = ".md".
Proof. repeat split. Qed.

Example glob_ex :
  Fs.glob Sample.fs_two Sample.phd "*.md"
  = [Sample.phd ++ ["broken.md"]; Sample.phd ++ ["a.md"]]
  /\ Fs.glob Sample.fs_two (Sample.phd ++ ["a.md"]) "*.md" = []
  /\ Fs.glob Sample.fs_two ["nowhere"] "*.md" = [].
Proof. repeat split. Qed.

Example strftime_ex : strftime_Ymd_HMS Sample.noon = "20240307_120509".
Proof. reflexivity. Qed.

(** A directory named like a PDF is stored as a directory entry. *)
Example create_zip_archive_ex :
  fs (create_zip_archive ["out"] ["a.zip"]
        (Sample.world (list_to_map [ (["out"], Dir);
                                     (["out"; "x.pdf"], File (Blob "x"));
                                     (["out"; "d.pdf"], Dir) ]))).2
  !! ["a.zip"] = Some (File (ZipArchive ["x.pdf"; "d.pdf/"])).
Proof. vm_compute. reflexivity. Qed.

(** The whole script on the sample directory: one conversion fails, the
    archive is created and the run returns normally. *)
Example main_ex :
  (main Sample.tools Sample.resolve ["prog"; "/home/phd"]
     (Sample.world Sample.fs_two)).1 = Ok tt
  /\ fs (main Sample.tools Sample.resolve ["prog"; "/home/phd"]
           (Sample.world Sample.fs_two)).2
     !! (Sample.phd ++ ["phd_documents_20240307_120509.zip"])
     = Some (File (ZipArchive ["a.pdf"])).
Proof. split; vm_compute; reflexivity. Qed.

(** ** Strings and patterns *)

#[local] Arguments String.append : simpl nomatch.

Lemma app_nil_r_string (s : string) : s +:+ "" = s.
Proof. induction s as [|c s IH]; simpl; congruence. Qed.


Lemma length_app_string (a b : string) :
  String.length (a +:+ b) = (String.length a + String.length b)%nat.
Proof. induction a as [|x a IH]; simpl; congruence. Qed.

Lemma app_inv_tail_string (a b c : string) : a +:+ c = b +:+ c -> a = b.
Proof.
  revert b. induction a as [|x a IH]; intros [|y b] H; simpl in *.
  - reflexivity.
  - apply (f_equal String.length) in H. simpl in H.
    rewrite length_app_string in H. lia.
  - apply (f_equal String.length) in H. simpl in H.
    rewrite length_app_string in H. lia.
  - injection H as -> H. f_equal. by apply IH.
Qed.

Lemma take_app_length (a b : string) : Str.take (String.length a) (a +:+ b) = a.
Proof. induction a as [|x a IH]; simpl; [by destruct b | congruence]. Qed.

Lemma take_drop (i : nat) (s : string) : Str.take i s +:+ Str.drop i s = s.
Proof.
  revert s. induction i as [|i IH]; intros [|c s]; simpl; try reflexivity.
  f_equal. apply IH.
Qed.

Lemma length_drop (i : nat) (s : string) :
  String.length (Str.drop i s) = (String.length s - i)%nat.
Proof.
  revert s. induction i as [|i IH]; intros [|c s]; simpl; try lia.
  apply IH.
Qed.

Lemma mem_app (c : ascii) (a b : string) :
  Str.mem c (a +:+ b) = Str.mem c a || Str.mem c b.
Proof.
  induction a as [|x a IH]; simpl; [reflexivity |].
  rewrite IH. by rewrite orb_assoc.
Qed.

Lemma mem_take (c : ascii) (i : nat) (s : string) :
  Str.mem c s = false -> Str.mem c (Str.take i s) = false.
Proof.
  intros H. rewrite <- (take_drop i s), mem_app in H.
  by apply orb_false_elim in H as [H _].
Qed.

Lemma rfind_range (c : ascii) (s : string) :
  (-1 <= Str.rfind c s < Z.of_nat (String.length s))%Z.
Proof.
  induction s as [|d s IH]; simpl; [lia |].
  destruct (Z.leb_spec 0 (Str.rfind c s)); [lia |].
  destruct (Ascii.eqb d c); lia.
Qed.

Lemma rfind_absent (c : ascii) (s : string) :
  Str.mem c s = false -> Str.rfind c s = (-1)%Z.
Proof.
  induction s as [|d s IH]; simpl; [reflexivity |].
  intros [Hd Hs]%orb_false_elim. rewrite (IH Hs), Hd. reflexivity.
Qed.

(** The last occurrence of [c] in [a c b] when [b] has none. *)
Lemma rfind_last (c : ascii) (a b : string) :
  Str.mem c b = false ->
  Str.rfind c (a +:+ String c b) = Z.of_nat (String.length a).
Proof.
  intros Hb. induction a as [|x a IH].
  - simpl. rewrite (rfind_absent _ _ Hb). simpl. by rewrite Ascii.eqb_refl.
  - cbn [String.app Str.rfind String.length]. rewrite IH.
    destruct (Z.leb_spec 0 (Z.of_nat (String.length a))); lia.
Qed.

Lemma split_no_sep (c : ascii) (s : string) :
  Str.mem c s = false -> Str.split c s = [s].
Proof.
  induction s as [|d s IH]; simpl; [reflexivity |].
  intros [Hd Hs]%orb_false_elim. by rewrite Hd, (IH Hs).
Qed.

(** A character that is not special matches itself. *)
Lemma fnmatch_char (c : ascii) (p s : string) :
  c <> "*"%char -> c <> "?"%char ->
  fnmatch (String c p) s
  = match s with
    | EmptyString => false
    | String d r => Ascii.eqb c d && fnmatch p r
    end.
Proof.
  intros Hstar Hq.
  destruct c as [[] [] [] [] [] [] [] []]; try reflexivity; congruence.
Qed.

Lemma fnmatch_literal (p s : string) :
  literal p -> fnmatch p s = true <-> s = p.
Proof.
  revert s. induction p as [|c p IH]; intros s [Hs Hq].
  - destruct s; simpl; split; congruence.
  - simpl in Hs, Hq.
    apply orb_false_elim in Hs as [Hc1 Hs], Hq as [Hc2 Hq].
    apply Ascii.eqb_neq in Hc1, Hc2.
    rewrite fnmatch_char by done.
    destruct s as [|d r]; [split; congruence |].
    rewrite andb_true_iff, Ascii.eqb_eq, (IH r (conj Hs Hq)).
    split; [intros [-> ->]; reflexivity | intros [= -> ->]; done].
Qed.

(** [*lit] matches exactly the names that end with [lit]. *)
Lemma fnmatch_star_literal (p s : string) :
  literal p -> fnmatch (String "*" p) s = true <-> exists x, s = x +:+ p.
Proof.
  intros Hp. induction s as [|d r IH].
  - simpl. rewrite orb_false_r, (fnmatch_literal p "" Hp). split.
    + intros H. exists "". by rewrite <- H.
    + intros [[|? ?] H]; simpl in H; [done | discriminate].
  - change (fnmatch (String "*" p) (String d r))
      with (fnmatch p (String d r) || fnmatch (String "*" p) r).
    rewrite orb_true_iff, (fnmatch_literal p _ Hp), IH. split.
    + intros [H | [x ->]]; [exists ""; by rewrite H | by exists (String d x)].
    + intros [[|c x] H]; simpl in H; [by left |].
      injection H as -> ->. right. by exists x.
Qed.

(** ** Pure paths *)

Lemma name_snoc (p : Path) (n : string) : PurePath.name (p ++ [n]) = n.
Proof. unfold PurePath.name. apply last_last. Qed.

Lemma parent_snoc (p : Path) (n : string) : PurePath.parent (p ++ [n]) = p.
Proof. unfold PurePath.parent. apply removelast_last. Qed.

Lemma parse_parts_component (n : string) :
  component n -> n <> "." -> PurePath.parse_parts n = [n].
Proof.
  intros [Hne Hsep] Hdot. unfold PurePath.parse_parts.
  rewrite (split_no_sep _ _ Hsep). simpl.
  apply String.eqb_neq in Hne, Hdot. by rewrite Hne, Hdot.
Qed.

(** Joining a single component appends it. *)
Lemma joinpath_component (p : Path) (n : string) :
  component n -> n <> "." -> PurePath.joinpath p n = p ++ [n].
Proof.
  intros Hn Hdot. unfold PurePath.joinpath.
  rewrite (parse_parts_component n Hn Hdot).
  destruct Hn as [Hne Hsep]. destruct n as [|c n]; [done |].
  simpl in *. apply orb_false_elim in Hsep as [Hc _].
  rewrite Ascii.eqb_sym in Hc. unfold Str.startswith.
  rewrite Ascii.eqb_sym. by rewrite Hc.
Qed.

Lemma normalize_snoc (acc p : list string) (n : string) :
  n <> ".." -> Fs.normalize acc (p ++ [n]) = Fs.normalize acc p ++ [n].
Proof.
  intros Hn. revert acc. induction p as [|x p IH]; intros acc; simpl.
  - apply String.eqb_neq in Hn. by rewrite Hn.
  - destruct (String.eqb x ".."); apply IH.
Qed.

Lemma key_snoc (p : Path) (n : string) :
  n <> ".." -> Fs.key (p ++ [n]) = Fs.key p ++ [n].
Proof. apply normalize_snoc. Qed.

(** What [pathlib] calls the suffix is cut off by [stem]. *)
Lemma stem_suffix (n : string) : PurePath.stem n +:+ PurePath.suffix n = n.
Proof.
  unfold PurePath.stem, PurePath.suffix.
  destruct (_ && _); [apply take_drop | apply app_nil_r_string].
Qed.

Lemma stem_with_extension (x ext : string) :
  x <> "" -> ext <> "" -> Str.mem "." ext = false ->
  PurePath.stem (x +:+ String "." ext) = x.
Proof.
  intros Hx Hext Hdot. unfold PurePath.stem.
  rewrite (rfind_last _ _ _ Hdot), length_app_string. simpl.
  destruct x as [|c x]; [done |]. destruct ext as [|e ext]; [done |].
  simpl String.length.
  replace (_ && _) with true
    by (symmetry; apply andb_true_iff; split;
        [apply Z.ltb_lt | apply Z.ltb_lt]; lia).
  rewrite Nat2Z.id.
  apply (take_app_length (String c x)).
Qed.

(** [with_suffix] keeps the directory and replaces the suffix of the name. *)
Lemma with_suffix_stem (p : Path) (s : string) :
  PurePath.name p <> "" ->
  PurePath.with_suffix p s
  = Some (PurePath.parent p ++ [PurePath.stem (PurePath.name p) +:+ s]).
Proof.
  intros Hn. unfold PurePath.with_suffix.
  apply String.eqb_neq in Hn. rewrite Hn. do 3 f_equal.
  unfold PurePath.suffix, PurePath.stem.
  set (n := PurePath.name p). set (i := Str.rfind "." n).
  destruct (_ && _) eqn:Hc; [| reflexivity].
  apply andb_true_iff in Hc as [Hlo%Z.ltb_lt Hhi%Z.ltb_lt].
  assert (String.length (Str.drop (Z.to_nat i) n)
          = (String.length n - Z.to_nat i)%nat) as Hlen by apply length_drop.
  destruct (String.eqb_spec (Str.drop (Z.to_nat i) n) "") as [E | _].
  - rewrite E in Hlen. simpl in Hlen. lia.
  - rewrite Hlen. do 2 f_equal. lia.
Qed.


(** ** The monad *)

Lemma bind_Ok {A B} (m : M A) (k : A -> M B) (w w' : World) (a : A) :
  m w = (Ok a, w') -> bind m k w = k a w'.
Proof. intros H. unfold bind. by rewrite H. Qed.

Lemma bind_Raise {A B} (m : M A) (k : A -> M B) (w w' : World) (e : Exn) :
  m w = (Raise e, w') -> bind m k w = (Raise e, w').
Proof. intros H. unfold bind. by rewrite H. Qed.


Lemma for_in_app {A S} (xs ys : list A) (body : A -> S -> M S) (s : S) (w : World) :
  for_in (xs ++ ys) body s w
  = (let* s' := for_in xs body s in for_in ys body s') w.
Proof.
  revert s w. induction xs as [|x xs IH]; intros s w; simpl; [reflexivity |].
  unfold bind in *. destruct (body x s w) as [[s' | e | c] w']; try reflexivity.
  apply IH.
Qed.

Section Stable.

Variable R : World -> World -> Prop.
Hypothesis R_refl : forall w, R w w.
Hypothesis R_trans : forall w1 w2 w3, R w1 w2 -> R w2 w3 -> R w1 w3.

Lemma stable_ret {A} (a : A) : stable R (ret a).
Proof. intros w. apply R_refl. Qed.

Lemma stable_raise {A} (e : Exn) : stable R (@raise A e).
Proof. intros w. apply R_refl. Qed.

Lemma stable_sys_exit {A} (c : Z) : stable R (@sys_exit A c).
Proof. intros w. apply R_refl. Qed.

Lemma stable_bind {A B} (m : M A) (k : A -> M B) :
  stable R m -> (forall a, stable R (k a)) -> stable R (bind m k).
Proof.
  intros Hm Hk w. unfold bind. specialize (Hm w).
  destruct (m w) as [[a | e | c] w']; simpl in *; try done.
  eapply R_trans; [exact Hm | apply Hk].
Qed.

Lemma stable_try_except {A} (m : M A) (h : Exn -> option (M A)) :
  stable R m -> (forall e k, h e = Some k -> stable R k) ->
  stable R (try_except m h).
Proof.
  intros Hm Hh w. unfold try_except. specialize (Hm w).
  destruct (m w) as [[a | e | c] w']; simpl in *; try done.
  destruct (h e) as [k |] eqn:E; [| done].
  eapply R_trans; [exact Hm | by eapply Hh].
Qed.

Lemma stable_for_in {A S} (xs : list A) (body : A -> S -> M S) (s : S) :
  (forall x s, stable R (body x s)) -> stable R (for_in xs body s).
Proof.
  intros Hb. revert s. induction xs as [|x xs IH]; intros s; simpl.
  - apply stable_ret.
  - apply stable_bind; [apply Hb | apply IH].
Qed.

End Stable.

Lemma never_exits_bind {A B} (m : M A) (k : A -> M B) :
  never_exits m -> (forall a, never_exits (k a)) -> never_exits (bind m k).
Proof.
  intros Hm Hk w c. unfold bind. specialize (Hm w).
  destruct (m w) as [[a | e | c'] w']; simpl in *; [apply Hk | done |].
  by destruct (Hm c').
Qed.

Lemma never_exits_for_in {A S} (xs : list A) (body : A -> S -> M S) (s : S) :
  (forall x s, never_exits (body x s)) -> never_exits (for_in xs body s).
Proof.
  intros Hb. revert s. induction xs as [|x xs IH]; intros s; simpl.
  - by intros w c.
  - apply never_exits_bind; [apply Hb | apply IH].
Qed.

(** ** Running a command *)

Section Running.

Variable exec : list string -> option nat -> FS -> RunResult * FS.

Lemma subprocess_run_eq (cmd : list string) (t : option nat) (w : World) :
  subprocess_run exec cmd t w
  = (match (exec cmd t (fs w)).1 with
     | CompletedProcess rc err => Ok (rc, err)
     | RunRaises e => Raise e
     end,
     ran cmd (exec cmd t (fs w)).2 w).
Proof.
  unfold subprocess_run, ran.
  destruct (exec cmd t (fs w)) as [[rc err | e] f']; reflexivity.
Qed.

Lemma pdf_path_of_component (md od : Path) :
  component (PurePath.name md) ->
  pdf_path_of md od
  = Some (od ++ [PurePath.stem (PurePath.name md) +:+ ".pdf"]).
Proof.
  intros [Hne Hsep]. unfold pdf_path_of.
  rewrite (with_suffix_stem _ _ Hne), name_snoc.
  rewrite joinpath_component; [reflexivity | split |].
  - intros H. apply (f_equal String.length) in H.
    rewrite length_app_string in H. simpl in H. lia.
  - rewrite mem_app. apply orb_false_intro; [| reflexivity].
    unfold PurePath.stem. destruct (_ && _); [by apply mem_take | done].
  - intros H. apply (f_equal String.length) in H.
    rewrite length_app_string in H. simpl in H. lia.
Qed.

Lemma pdf_path_of_named (md od : Path) :
  PurePath.name md <> "" -> is_Some (pdf_path_of md od).
Proof.
  intros Hne. unfold pdf_path_of. rewrite (with_suffix_stem _ _ Hne). eauto.
Qed.

(** [convert_md_to_pdf] in closed form: one run of the command, and the
    answer read off its result. *)
Lemma convert_md_to_pdf_eq (md od pdf : Path) (w : World) :
  pdf_path_of md od = Some pdf ->
  let cmd := pandoc_cmd md pdf in
  let r := exec cmd (Some 120%nat) (fs w) in
  convert_md_to_pdf exec md od w
  = (Ok (match r.1 with
         | CompletedProcess rc _ => (rc =? 0)%Z
         | RunRaises _ => false
         end),
     ran cmd r.2 w).
Proof.
  intros Hpdf. simpl. unfold convert_md_to_pdf. rewrite Hpdf.
  unfold try_except, bind. rewrite subprocess_run_eq.
  destruct (exec _ _ _) as [[rc err | e] f']; simpl.
  - destruct (rc =? 0)%Z; reflexivity.
  - destruct e; reflexivity.
Qed.

End Running.

(** ** The conversion invoker *)

Section Conversion.

Variable exec : list string -> option nat -> FS -> RunResult * FS.


(** C9.  The output path of an input file is a function of its name alone:
    it lies in the output directory and is named by the stem of the input
    name followed by [.pdf], so that for a name [x.md] it is [x.pdf]; two
    inputs get the same output path exactly when their stems are equal,
    which nothing rules out. *)
Theorem pdf_path_deterministic (output_dir md1 md2 : Path) :
  component (PurePath.name md1) -> component (PurePath.name md2) ->
  pdf_path_of md1 output_dir
  = Some (output_dir ++ [PurePath.stem (PurePath.name md1) +:+ ".pdf"])
  /\ (forall x, x <> "" -> PurePath.name md1 = x +:+ ".md" ->
      pdf_path_of md1 output_dir = Some (output_dir ++ [x +:+ ".pdf"]))
  /\ (pdf_path_of md1 output_dir = pdf_path_of md2 output_dir
      <-> PurePath.stem (PurePath.name md1) = PurePath.stem (PurePath.name md2)).
Proof.
  intros H1 H2.
  rewrite (pdf_path_of_component md1 output_dir H1),
          (pdf_path_of_component md2 output_dir H2).
  split; [reflexivity |]. split.
  - intros x Hx ->. by rewrite (stem_with_extension x "md").
  - split.
    + intros [= H%app_inv_head]. injection H as H.
      by apply app_inv_tail_string in H.
    + by intros ->.
Qed.

End Conversion.


Lemma pdf_path_deterministic_witness :
  component (PurePath.name (Sample.phd ++ ["a.md"]))
  /\ component (PurePath.name (Sample.phd ++ ["broken.md"]))
  /\ pdf_path_of (Sample.phd ++ ["a.md"]) (Sample.phd ++ ["pdf_output"])
     = Some (Sample.phd ++ ["pdf_output"; "a.pdf"])
  /\ pdf_path_of (Sample.phd ++ ["a.md"]) (Sample.phd ++ ["pdf_output"])
     <> pdf_path_of (Sample.phd ++ ["broken.md"]) (Sample.phd ++ ["pdf_output"]).
Proof.
  assert (component (PurePath.name (Sample.phd ++ ["a.md"]))) as Ha
    by (split; [discriminate | reflexivity]).
  assert (component (PurePath.name (Sample.phd ++ ["broken.md"]))) as Hb
    by (split; [discriminate | reflexivity]).
  destruct (pdf_path_deterministic (Sample.phd ++ ["pdf_output"])
              (Sample.phd ++ ["a.md"]) (Sample.phd ++ ["broken.md"]) Ha Hb)
    as (Hpath & _ & Hiff).
  split; [exact Ha |]. split; [exact Hb |]. split; [exact Hpath |].
  intros H%Hiff. vm_compute in H. discriminate H.
Defined.

(** The collision the script does not guard against: the entries [.md] and
    [.md.md] of one directory both match [*.md] and both convert to
    [.md.pdf]. *)
Example pdf_path_collision :
  fnmatch "*.md" ".md" = true /\ fnmatch "*.md" ".md.md" = true
  /\ pdf_path_of (Sample.phd ++ [".md"]) (Sample.phd ++ ["pdf_output"])
     = pdf_path_of (Sample.phd ++ [".md.md"]) (Sample.phd ++ ["pdf_output"]).
Proof. repeat split. Qed.

(** ** File discovery *)

Lemma entry_in_Some (d k : list string) (n : string) :
  Fs.entry_in d k = Some n <-> k = d ++ [n].
Proof.
  unfold Fs.entry_in. split.
  - destruct (last k) as [m |]; [| done].
    destruct (decide (k = d ++ [m])); [| done]. by intros [= <-].
  - intros ->. rewrite last_snoc. by rewrite decide_True.
Qed.

(** What [glob] finds: the entries of the directory whose name matches. *)
Lemma elem_of_glob (f : FS) (dir p : Path) (pat : string) :
  p ∈ Fs.glob f dir pat
  <-> Fs.node f dir = Some Dir
      /\ exists n, p = dir ++ [n] /\ fnmatch pat n = true
                   /\ is_Some (f !! (Fs.key dir ++ [n])).
Proof.
  unfold Fs.glob. destruct (Fs.node f dir) as [[| c] |] eqn:Hd.
  - rewrite list_elem_of_omap. split.
    + intros [[k v] [Hin Hp]]. apply elem_of_map_to_list in Hin. simpl in Hp.
      destruct (Fs.entry_in (Fs.key dir) k) as [n |] eqn:Hk; [| done].
      destruct (fnmatch pat n) eqn:Hm; [| done]. injection Hp as <-.
      apply entry_in_Some in Hk as ->. split; [done |].
      exists n. by rewrite Hin.
    + intros [_ (n & -> & Hm & [v Hv])].
      exists (Fs.key dir ++ [n], v). split; [by apply elem_of_map_to_list |].
      simpl. rewrite (proj2 (entry_in_Some _ _ n) eq_refl). by rewrite Hm.
  - split; [by intros ?%elem_of_nil | by intros [? _]].
  - split; [by intros ?%elem_of_nil | by intros [? _]].
Qed.

Lemma markdown_named (p : Path) : markdown p -> PurePath.name p <> "".
Proof.
  unfold markdown. intros H Hn. rewrite Hn in H. discriminate H.
Qed.


(** ** The conversion loop *)

Section Loop.

Variable exec : list string -> option nat -> FS -> RunResult * FS.
Variable output_dir : Path.

Lemma convert_md_to_pdf_named (md : Path) (w : World) :
  PurePath.name md <> "" ->
  exists b, convert_md_to_pdf exec md output_dir w
            = (Ok b, ran (conversion_cmd output_dir md)
                         (exec (conversion_cmd output_dir md) (Some 120%nat) (fs w)).2 w).
Proof.
  intros Hn. destruct (pdf_path_of_named md output_dir Hn) as [pdf Hpdf].
  unfold conversion_cmd. rewrite Hpdf.
  rewrite (convert_md_to_pdf_eq exec _ _ _ w Hpdf). eauto.
Qed.

Lemma convert_one_step (md : Path) (c : nat) (f : list string) (w w1 : World) (b : bool) :
  convert_md_to_pdf exec md output_dir w = (Ok b, w1) ->
  convert_one exec output_dir md (c, f) w
  = (Ok (if b then ((c + 1)%nat, f) else (c, f ++ [PurePath.name md])), w1).
Proof.
  intros Hb. unfold convert_one. rewrite (bind_Ok _ _ _ _ _ Hb).
  by destruct b.
Qed.

(** The loop in closed form, from any state of its two accumulators. *)
Lemma convert_loop_spec (md_files : list Path) (c : nat) (f : list string) (w : World) :
  Forall markdown md_files ->
  let convs := conversions exec output_dir md_files w in
  exists w',
    for_in md_files (convert_one exec output_dir) (c, f) w
    = (Ok ((c + List.length (List.filter (fun x => negb (failed x)) convs))%nat,
           f ++ map (fun x => PurePath.name x.1) (List.filter failed convs)), w')
    /\ map fst convs = md_files
    /\ Forall (fun x => exists b, x.2 = Ok b) convs
    /\ launched w' = launched w ++ map (conversion_cmd output_dir) md_files
    /\ clock w' = clock w.
Proof.
  intros Hmd. revert c f w.
  induction Hmd as [| md rest Hmd _ IH]; intros c f w; cbv zeta.
  - exists w. simpl. rewrite Nat.add_0_r, !app_nil_r. repeat split. constructor.
  - destruct (convert_md_to_pdf_named md w (markdown_named _ Hmd)) as [b Hb].
    cbn [for_in conversions]. rewrite Hb.
    rewrite (bind_Ok _ _ _ _ _ (convert_one_step md c f w _ b Hb)).
    set (w1 := ran _ _ w) in *.
    destruct b.
    + destruct (IH (c + 1)%nat f w1) as (w' & Hrun & Hfst & Hok & Hl & Hc).
      exists w'. rewrite Hrun. cbn [List.filter failed snd fst negb map].
      repeat split.
      * do 2 f_equal. cbn [List.length]. f_equal. lia.
      * by rewrite Hfst.
      * constructor; [by exists true | done].
      * rewrite Hl. unfold w1. simpl. by rewrite <- app_assoc.
      * by rewrite Hc.
    + destruct (IH c (f ++ [PurePath.name md]) w1) as (w' & Hrun & Hfst & Hok & Hl & Hc).
      exists w'. rewrite Hrun. cbn [List.filter failed snd fst negb map].
      repeat split.
      * by rewrite <- app_assoc.
      * by rewrite Hfst.
      * constructor; [by exists false | done].
      * rewrite Hl. unfold w1. simpl. by rewrite <- app_assoc.
      * by rewrite Hc.
Qed.


(** C10.  At every point of the conversion loop, after the files [seen]
    and before the files [rest], the success count plus the length of the
    failure list is the number of files processed; at the end of the loop
    ([rest] empty) it is the number of discovered files. *)
Theorem conversion_loop_accounting (seen rest : list Path) (w : World) :
  Forall markdown (seen ++ rest) ->
  exists success_count failed_files w',
    for_in seen (convert_one exec output_dir) (0%nat, []) w
    = (Ok (success_count, failed_files), w')
    /\ (success_count + List.length failed_files = List.length seen)%nat
    /\ for_in (seen ++ rest) (convert_one exec output_dir) (0%nat, []) w
       = for_in rest (convert_one exec output_dir) (success_count, failed_files) w'.
Proof.
  intros [Hseen _]%Forall_app.
  destruct (convert_loop_spec seen 0 [] w Hseen) as (w' & Hrun & Hfst & _).
  eexists _, _, w'. split; [exact Hrun |]. split.
  - simpl. rewrite length_map. rewrite <- Hfst at 3. rewrite length_map.
    set (convs := conversions exec output_dir seen w).
    clearbody convs. clear.
    induction convs as [| x convs IH]; simpl; [reflexivity |].
    destruct (failed x); simpl; lia.
  - rewrite for_in_app. unfold bind. by rewrite Hrun.
Qed.

End Loop.


Lemma conversion_loop_accounting_witness :
  Forall markdown ([Sample.phd ++ ["a.md"]; Sample.phd ++ ["broken.md"]]
                   ++ [Sample.phd ++ ["slow.md"]])
  /\ exists success_count failed_files w',
       for_in [Sample.phd ++ ["a.md"]; Sample.phd ++ ["broken.md"]]
         (convert_one Sample.tools (Sample.phd ++ ["pdf_output"])) (0%nat, [])
         (Sample.world Sample.fs_two)
       = (Ok (success_count, failed_files), w')
       /\ (success_count + List.length failed_files = 2)%nat.
Proof.
  assert (Forall markdown ([Sample.phd ++ ["a.md"]; Sample.phd ++ ["broken.md"]]
                           ++ [Sample.phd ++ ["slow.md"]])) as Hmd
    by (repeat constructor).
  split; [exact Hmd |].
  destruct (conversion_loop_accounting Sample.tools (Sample.phd ++ ["pdf_output"])
              _ _ (Sample.world Sample.fs_two) Hmd)
    as (c & f & w' & Hrun & Hsum & _).
  exists c, f, w'. split; [exact Hrun | exact Hsum].
Defined.

(** ** The dependency checker *)

Section Dependencies.

Variable exec : list string -> option nat -> FS -> RunResult * FS.

Lemma check_tool_eq (tool cmd : string) (missing : list string) (w : World) :
  let r := exec (String.words cmd) None (fs w) in
  check_tool exec (tool, cmd) missing w
  = (match r.1 with
     | CompletedProcess _ _ => Ok missing
     | RunRaises FileNotFoundError => Ok (missing ++ [tool])
     | RunRaises e => Raise e
     end,
     ran (String.words cmd) r.2 w).
Proof.
  simpl. unfold try_except, bind. rewrite subprocess_run_eq.
  destruct (exec _ _ _) as [[rc err | e] f']; simpl; [reflexivity |].
  destruct e; reflexivity.
Qed.

(** The loop of the checker when every invocation either completes or is
    not found: the tools that were not found, in order. *)
Lemma check_loop_spec (items : list (string * string)) (missing : list string)
    (w : World) :
  Forall (fun x => started x.2 = true \/ not_found x.2 = true)
         (probes exec items (fs w)) ->
  exists w',
    for_in items (check_tool exec) missing w
    = (Ok (missing ++ map fst (List.filter (fun x => not_found x.2)
                                           (probes exec items (fs w)))), w')
    /\ launched w' = launched w ++ map (fun x => String.words x.2) items.
Proof.
  revert missing w. induction items as [| [tool cmd] items IH]; intros missing w.
  - intros _. exists w. simpl. by rewrite !app_nil_r.
  - cbn [probes for_in]. pose proof (check_tool_eq tool cmd missing w) as Hstep.
    cbv zeta in Hstep.
    destruct (exec (String.words cmd) None (fs w)) as [r f'] eqn:Hr.
    simpl in Hstep. intros Hall. apply Forall_cons in Hall as [Hr1 Hall].
    simpl in Hr1. set (w1 := ran (String.words cmd) f' w) in *.
    destruct r as [rc err | e].
    + rewrite (bind_Ok _ _ _ _ _ Hstep).
      destruct (IH missing w1 Hall) as (w' & Hrun & Hl).
      exists w'. simpl. rewrite Hrun, Hl. simpl. by rewrite <- app_assoc.
    + destruct Hr1 as [Hr1 | Hr1]; [discriminate |].
      destruct e; try discriminate.
      rewrite (bind_Ok _ _ _ _ _ Hstep).
      destruct (IH (missing ++ [tool]) w1 Hall) as (w' & Hrun & Hl).
      exists w'. simpl. rewrite Hrun, Hl. simpl. by rewrite <- !app_assoc.
Qed.

(** The checker never calls [sys.exit] itself. *)
Lemma check_dependencies_never_exits : never_exits (check_dependencies exec).
Proof.
  unfold check_dependencies. apply never_exits_bind.
  - apply never_exits_for_in. intros [tool cmd] missing w c.
    rewrite check_tool_eq. simpl.
    destruct (exec _ _ _) as [[rc err | e] f']; simpl; [done |].
    destruct e; done.
  - intros [| ? ?] w c; done.
Qed.

(** Whatever a relation on worlds: if running a command respects it, so
    does the checker. *)
Lemma check_dependencies_stable (R : World -> World -> Prop) :
  (forall w, R w w) -> (forall w1 w2 w3, R w1 w2 -> R w2 w3 -> R w1 w3) ->
  (forall x w, In x required ->
     R w (ran (String.words x.2) (exec (String.words x.2) None (fs w)).2 w)) ->
  stable R (check_dependencies exec).
Proof.
  intros Hrefl Htrans Hrun. unfold check_dependencies.
  apply stable_bind; try done.
  - assert (forall items, incl items required ->
              forall s, stable R (for_in items (check_tool exec) s)) as Hloop.
    { induction items as [| [tool cmd] items IH]; intros Hincl s.
      - by apply stable_ret.
      - cbn [for_in]. apply stable_bind; try done.
        + intros w. rewrite check_tool_eq. simpl.
          apply (Hrun (tool, cmd)). apply Hincl. by left.
        + intros s'. apply IH. intros x Hx. apply Hincl. by right. }
    apply Hloop. by intros x.
  - intros [| ? ?]; by apply stable_ret.
Qed.

(** C7, amended.  Provided every invocation of a required tool either runs
    to completion, with whatever exit status, or raises the
    command-not-found condition, the dependency checker returns, and it
    returns true if and only if no required tool is missing; the tools it
    records as missing are exactly those whose invocation raised
    command-not-found, so a tool that starts and fails is not recorded. *)
Theorem check_dependencies_missing (w : World) :
  let results := probes exec required (fs w) in
  Forall (fun x => started x.2 = true \/ not_found x.2 = true) results ->
  exists missing w',
    for_in required (check_tool exec) [] w = (Ok missing, w')
    /\ missing = map fst (List.filter (fun x => not_found x.2) results)
    /\ (forall tool r, (tool, r) ∈ results -> started r = true -> tool ∉ missing)
    /\ check_dependencies exec w = (Ok (bool_decide (missing = [])), w')
    /\ (bool_decide (missing = []) = true
        <-> Forall (fun x => not_found x.2 = false) results).
Proof.
  intros results Hall.
  destruct (check_loop_spec required [] w Hall) as (w' & Hrun & _).
  fold results in Hrun. simpl in Hrun.
  eexists _, w'. split; [exact Hrun |]. split; [reflexivity |].
  assert (check_dependencies exec w
          = (Ok (bool_decide
                   (map fst (List.filter (fun x => not_found x.2) results) = [])),
             w')) as Hcheck.
  { unfold check_dependencies. rewrite (bind_Ok _ _ _ _ _ Hrun).
    by destruct (map fst _). }
  assert (exists r1 r2, results = [("pandoc", r1); ("pdflatex", r2)])
    as (r1 & r2 & Hres).
  { unfold results, required. simpl.
    destruct (exec _ None (fs w)) as [r1 f1].
    destruct (exec _ None f1) as [r2 f2]. eauto. }
  rewrite Hres in *. clear Hres Hrun. split; [| split; [exact Hcheck |]].
  - intros tool r Hin Hstarted Hmiss.
    assert (not_found r = false) as Hnf by (by destruct r).
    apply list_elem_of_In in Hin, Hmiss. simpl in Hin, Hmiss.
    destruct Hin as [Hin | [Hin | []]]; injection Hin as <- <-;
      rewrite Hnf in Hmiss; destruct (not_found _) in Hmiss;
      simpl in Hmiss; intuition discriminate.
  - rewrite bool_decide_eq_true. simpl.
    destruct (not_found r1) eqn:E1, (not_found r2) eqn:E2; simpl; split;
      try discriminate; try reflexivity.
    + intros [H _]%Forall_cons. simpl in H. congruence.
    + intros [H _]%Forall_cons. simpl in H. congruence.
    + intros [_ [H _]%Forall_cons]%Forall_cons. simpl in H. congruence.
    + intros _. by repeat constructor.
Qed.

End Dependencies.

Lemma check_dependencies_missing_witness :
  Forall (fun x => started x.2 = true \/ not_found x.2 = true)
         (probes Sample.no_pdflatex required Sample.fs_two)
  /\ (check_dependencies Sample.no_pdflatex (Sample.world Sample.fs_two)).1
     = Ok false
  /\ (check_dependencies Sample.broken_pandoc (Sample.world Sample.fs_two)).1
     = Ok true.
Proof.
  assert (Forall (fun x => started x.2 = true \/ not_found x.2 = true)
                 (probes Sample.no_pdflatex required Sample.fs_two)) as Hall
    by (repeat constructor; simpl; auto).
  split; [exact Hall |].
  destruct (check_dependencies_missing Sample.no_pdflatex
              (Sample.world Sample.fs_two) Hall)
    as (missing & w' & _ & Hmissing & _ & Hcheck & _).
  rewrite Hcheck, Hmissing. split; reflexivity.
Defined.

(** C7 as stated fails where a tool is installed but may not be executed:
    the invocation of [pandoc] raises [PermissionError], no tool counts as
    missing, and the checker does not return true: the exception leaves it. *)
Lemma check_dependencies_permission_error :
  Forall (fun x => not_found x.2 = false)
         (probes Sample.no_permission required Sample.fs_two)
  /\ (check_dependencies Sample.no_permission (Sample.world Sample.fs_two)).1
     = Raise PermissionError
  /\ (check_dependencies Sample.no_permission (Sample.world Sample.fs_two)).1
     <> Ok true.
Proof. split; [by repeat constructor | split; [reflexivity | discriminate]]. Qed.

(** ** The driver *)

Section Driver.

Variable exec : list string -> option nat -> FS -> RunResult * FS.
Variable resolve : string -> Path.

Lemma bind_Ok_inv {A B} (m : M A) (k : A -> M B) (w w' : World) (b : B) :
  bind m k w = (Ok b, w') ->
  exists a w1, m w = (Ok a, w1) /\ k a w1 = (Ok b, w').
Proof.
  unfold bind. destruct (m w) as [[a | e | c] w1]; try discriminate. eauto.
Qed.

(** Lines 119-123 do not change the world. *)
Lemma output_zip_name_step (argv : list string) (w : World) :
  (if (3 <=? List.length argv)%nat then ret (nth 2 argv "")
   else
     let* now := datetime_now in
     let timestamp := strftime_Ymd_HMS now in
     ret ("phd_documents_" +:+ timestamp +:+ ".zip")) w
  = (Ok (archive_name argv (clock w)), w).
Proof. unfold archive_name. by destruct (3 <=? _)%nat. Qed.

Lemma main_reaches (argv : list string) (w : World) (output_dir output_zip : Path)
    (c : nat) (f : list string) (w3 : World) :
  reaches_archive exec resolve argv w output_dir output_zip c f w3 ->
  main exec resolve argv w = archive_stage output_dir output_zip w3.
Proof.
  intros (w1 & w2 & Hlen & Hdeps & Hdir & Hmd & -> & Hmk & Hloop & ->).
  unfold main. rewrite (proj2 (Nat.ltb_ge _ _) Hlen).
  rewrite (bind_Ok _ _ _ _ _ Hdeps). cbn [negb].
  rewrite (bind_Ok _ _ _ _ _ (output_zip_name_step argv w1)).
  erewrite (bind_Ok (path_exists _)) by reflexivity.
  rewrite bool_decide_eq_true_2 by (rewrite Hdir; eauto). cbn [negb].
  erewrite (bind_Ok (path_is_dir _)) by reflexivity.
  rewrite Hdir. cbn [negb].
  erewrite (bind_Ok (path_glob _ _)) by reflexivity.
  destruct (Fs.glob (fs w1) (resolve (nth 1 argv "")) "*.md") as [| md mds] eqn:Hglob;
    [done |].
  rewrite (bind_Ok _ _ _ _ _ Hmk). rewrite (bind_Ok _ _ _ _ _ Hloop).
  reflexivity.
Qed.

(** A run of [main] returns normally only by reaching the archiving stage
    and having the archiver return true. *)
Lemma main_inv (argv : list string) (w w' : World) :
  main exec resolve argv w = (Ok tt, w') ->
  exists output_dir output_zip c f w3,
    reaches_archive exec resolve argv w output_dir output_zip c f w3
    /\ create_zip_archive output_dir output_zip w3 = (Ok true, w').
Proof.
  unfold main. destruct (List.length argv <? 2)%nat eqn:Hlen; [discriminate |].
  apply Nat.ltb_ge in Hlen.
  intros (deps & w1 & Hdeps & H)%bind_Ok_inv.
  destruct deps; [| discriminate]. cbn [negb] in H.
  rewrite (bind_Ok _ _ _ _ _ (output_zip_name_step argv w1)) in H.
  apply bind_Ok_inv in H as (present & w1' & Hpresent & H).
  injection Hpresent as <- <-.
  destruct (bool_decide _); [| discriminate]. cbn [negb] in H.
  apply bind_Ok_inv in H as (isdir & w1' & Hisdir & H).
  unfold path_is_dir in Hisdir.
  destruct (Fs.node (fs w1) (resolve (nth 1 argv ""))) as [[| ?] |] eqn:Hdir;
    injection Hisdir as <- <-; try discriminate.
  cbn [negb] in H.
  apply bind_Ok_inv in H as (md_files & w1' & Hglob & H).
  injection Hglob as <- <-.
  destruct (Fs.glob (fs w1) (resolve (nth 1 argv "")) "*.md") as [| md mds] eqn:Hglob;
    [discriminate |].
  apply bind_Ok_inv in H as ([] & w2 & Hmk & H).
  apply bind_Ok_inv in H as ([c f] & w3 & Hloop & H).
  apply bind_Ok_inv in H as (archived & w4 & Hzip & H).
  destruct archived; [| discriminate].
  apply bind_Ok_inv in H as ([] & w5 & Hstat & H).
  injection H as <-. unfold path_stat in Hstat.
  destruct (Fs.node (fs w4) _); [| discriminate]. injection Hstat as <-.
  eexists _, _, c, f, w3. split; [| exact Hzip].
  exists w1, w2. cbv zeta. rewrite Hglob. by repeat split.
Qed.

End Driver.

(** ** The archiver *)

Lemma at_key_ne (f : FS) (k : list string) : k <> [] -> Fs.at_key f k = f !! k.
Proof. by destruct k. Qed.

Lemma at_key_insert_eq (f : FS) (k : list string) (n : Node) :
  k <> [] -> Fs.at_key (<[k := n]> f) k = Some n.
Proof. intros Hk. rewrite at_key_ne by done. apply lookup_insert_eq. Qed.

Lemma at_key_insert_ne (f : FS) (k k' : list string) (n : Node) :
  k <> k' -> Fs.at_key (<[k := n]> f) k' = Fs.at_key f k'.
Proof.
  intros Hk. destruct k' as [| x k']; [reflexivity |].
  simpl. by apply lookup_insert_ne.
Qed.

Lemma pdf_name_not_dotdot (n : string) : fnmatch "*.pdf" n = true -> n <> "..".
Proof.
  intros [x ->]%fnmatch_star_literal; [| by split].
  intros H%(f_equal String.length). rewrite length_app_string in H.
  simpl in H. lia.
Qed.

(** The entries [glob] finds exist. *)
Lemma glob_pdf_exists (f : FS) (dir : Path) :
  Forall (fun p => is_Some (Fs.node f p) /\ Fs.key p <> [])
         (Fs.glob f dir "*.pdf").
Proof.
  apply Forall_forall. intros p (_ & n & -> & Hm & Hn)%elem_of_glob.
  unfold Fs.node. rewrite (key_snoc _ _ (pdf_name_not_dotdot n Hm)).
  split; [| by destruct (Fs.key dir)].
  rewrite at_key_ne; [done | by destruct (Fs.key dir)].
Qed.

(** The writing loop of the archiver: [names] is what the archive already
    holds, [f0] the file system before the archive was opened. *)
Lemma add_pdf_loop (f0 : FS) (output_zip : Path) (pdf_files : list Path)
    (names : list string) (w : World) :
  fs w = <[Fs.key output_zip := File (ZipArchive names)]> f0 ->
  Fs.key output_zip <> [] ->
  Fs.at_key f0 (Fs.key output_zip) <> Some Dir ->
  Forall (fun p => is_Some (Fs.node f0 p) /\ Fs.key p <> []) pdf_files ->
  let names' := names ++ map (member_name f0) pdf_files in
  for_in pdf_files add_pdf {| filename := output_zip; namelist := names |} w
  = (Ok {| filename := output_zip; namelist := names' |},
     set_fs (<[Fs.key output_zip := File (ZipArchive names')]> f0) w).
Proof.
  intros Hfs Hk Hnd Hall. revert names w Hfs.
  induction Hall as [| p rest [[n Hn] Hp] _ IH]; intros names w Hfs; cbv zeta.
  - simpl. rewrite app_nil_r. unfold ret. f_equal.
    rewrite <- Hfs. by destruct w.
  - cbn [for_in map].
    assert (Fs.node (fs w) p
            = Some (match n with Dir => Dir | File _ => File (ZipArchive names) end)
            \/ Fs.node (fs w) p = Some n) as Hnode.
    { unfold Fs.node in *. rewrite Hfs.
      destruct (decide (Fs.key output_zip = Fs.key p)) as [E | E].
      - left. rewrite <- E, at_key_insert_eq by done.
        rewrite <- E in Hn. destruct n; [done | reflexivity].
      - right. by rewrite at_key_insert_ne. }
    assert (add_pdf p {| filename := output_zip; namelist := names |} w
            = (Ok {| filename := output_zip;
                     namelist := names ++ [member_name f0 p] |},
               set_fs (<[Fs.key output_zip
                         := File (ZipArchive (names ++ [member_name f0 p]))]> f0) w))
      as Hstep.
    { unfold add_pdf, ZipFile_write, member_name. rewrite Hn.
      assert (<[Fs.key output_zip
                := File (ZipArchive (names ++ [match n with
                                               | Dir => PurePath.name p +:+ "/"
                                               | File _ => PurePath.name p
                                               end]))]> (fs w)
              = <[Fs.key output_zip
                := File (ZipArchive (names ++ [match n with
                                               | Dir => PurePath.name p +:+ "/"
                                               | File _ => PurePath.name p
                                               end]))]> f0) as Hins
        by (by rewrite Hfs, insert_insert_eq).
      destruct Hnode as [-> | ->]; destruct n; by rewrite <- Hins. }
    rewrite (bind_Ok _ _ _ _ _ Hstep).
    rewrite (IH (names ++ [member_name f0 p])
                (set_fs (<[Fs.key output_zip
                           := File (ZipArchive (names ++ [member_name f0 p]))]> f0) w)
                eq_refl).
    cbv zeta. unfold set_fs. simpl. by rewrite <- !app_assoc.
Qed.

Lemma create_zip_archive_empty (pdf_dir output_zip : Path) (w : World) :
  Fs.glob (fs w) pdf_dir "*.pdf" = [] ->
  create_zip_archive pdf_dir output_zip w = (Ok false, w).
Proof.
  intros H. unfold create_zip_archive.
  erewrite (bind_Ok (path_glob _ _)) by reflexivity. by rewrite H.
Qed.

(** A successful run of the archiver, in closed form. *)
Lemma create_zip_archive_true (pdf_dir output_zip : Path) (w w' : World) :
  create_zip_archive pdf_dir output_zip w = (Ok true, w') ->
  let found := Fs.glob (fs w) pdf_dir "*.pdf" in
  found <> []
  /\ Fs.key output_zip <> []
  /\ w' = set_fs (<[Fs.key output_zip
                    := File (ZipArchive (map (member_name (fs w)) found))]> (fs w)) w.
Proof.
  unfold create_zip_archive.
  erewrite (bind_Ok (path_glob _ _)) by reflexivity.
  pose proof (glob_pdf_exists (fs w) pdf_dir) as Hall.
  destruct (Fs.glob (fs w) pdf_dir "*.pdf") as [| p rest] eqn:Hglob;
    [discriminate |].
  intros (zipf & w1 & Hopen & H)%bind_Ok_inv. cbv zeta.
  unfold ZipFile_open in Hopen.
  assert (Fs.key output_zip <> [] /\ Fs.node (fs w) output_zip <> Some Dir
          /\ create_at (Fs.key output_zip) (File (ZipArchive [])) w = (Ok tt, w1)
          /\ zipf = {| filename := output_zip; namelist := [] |})
    as (Hk & Hnd & Hcreate & ->).
  { destruct (Fs.node (fs w) output_zip) as [[| c] |] eqn:Hnode;
      try discriminate;
      apply bind_Ok_inv in Hopen as ([] & w1' & Hcreate & Hret);
      injection Hret as <- <-; repeat split; try done;
      intros Hk; unfold Fs.node in Hnode; by rewrite Hk in Hnode. }
  unfold create_at in Hcreate.
  destruct (Fs.at_key (fs w) (removelast (Fs.key output_zip))) as [[| c] |];
    try discriminate.
  injection Hcreate as <-.
  rewrite (bind_Ok _ _ _ _ _
             (add_pdf_loop (fs w) output_zip (p :: rest) []
                (set_fs (<[Fs.key output_zip := File (ZipArchive [])]> (fs w)) w)
                eq_refl Hk Hnd Hall)) in H.
  injection H as <-. repeat split; try done.
Qed.

Section Exits.

Variable exec : list string -> option nat -> FS -> RunResult * FS.
Variable resolve : string -> Path.

(** C6.  When the archiver finds no [*.pdf] entry in the output directory
    it returns false and leaves the world as it is, so no archive file is
    created; a run of [main] that reaches the archiver in such a world ends
    with exit status 1. *)
Theorem create_zip_archive_nothing (pdf_dir output_zip : Path) (w : World) :
  Fs.glob (fs w) pdf_dir "*.pdf" = [] ->
  create_zip_archive pdf_dir output_zip w = (Ok false, w)
  /\ forall argv w0 c f,
       reaches_archive exec resolve argv w0 pdf_dir output_zip c f w ->
       main exec resolve argv w0 = (SysExit 1, w)
       /\ exit_status (main exec resolve argv w0).1 = 1%Z.
Proof.
  intros Hglob.
  pose proof (create_zip_archive_empty pdf_dir output_zip w Hglob) as Hzip.
  split; [exact Hzip |]. intros argv w0 c f Hreach.
  rewrite (main_reaches exec resolve _ _ _ _ _ _ _ Hreach).
  unfold archive_stage. rewrite (bind_Ok _ _ _ _ _ Hzip). by split.
Qed.

(** C3.  A run that gets through argument parsing, the dependency check,
    the validation of the input directory and file discovery, reaches the
    archiver and has its archive created returns normally, with exit status
    0, whatever the failure list holds: failed conversions alone never make
    the exit status non-zero. *)
Theorem partial_failure_exit_zero (argv : list string) (w : World)
    (output_dir output_zip : Path) (success_count : nat)
    (failed_files : list string) (w3 w4 : World) :
  reaches_archive exec resolve argv w output_dir output_zip
    success_count failed_files w3 ->
  create_zip_archive output_dir output_zip w3 = (Ok true, w4) ->
  main exec resolve argv w = (Ok tt, w4)
  /\ exit_status (main exec resolve argv w).1 = 0%Z.
Proof.
  intros Hreach Hzip.
  rewrite (main_reaches exec resolve _ _ _ _ _ _ _ Hreach).
  unfold archive_stage. rewrite (bind_Ok _ _ _ _ _ Hzip).
  apply create_zip_archive_true in Hzip as (_ & Hk & ->).
  assert (path_stat output_zip
            (set_fs (<[Fs.key output_zip
                       := File (ZipArchive
                                  (map (member_name (fs w3))
                                       (Fs.glob (fs w3) output_dir "*.pdf")))]>
                       (fs w3)) w3)
          = (Ok tt, set_fs (<[Fs.key output_zip
                       := File (ZipArchive
                                  (map (member_name (fs w3))
                                       (Fs.glob (fs w3) output_dir "*.pdf")))]>
                       (fs w3)) w3)) as Hstat.
  { unfold path_stat, Fs.node. simpl. by rewrite at_key_insert_eq. }
  rewrite (bind_Ok _ _ _ _ _ Hstat). by split.
Qed.

(** C8.  When discovery finds no Markdown file in the input directory the
    run ends with exit status 1 in the very world the dependency check
    left: the only commands launched are the two version probes, so no
    conversion is run and the output directory is not created. *)
Theorem no_markdown_no_conversion (argv : list string) (w : World) :
  (2 <= List.length argv)%nat ->
  let w1 := (check_dependencies exec w).2 in
  Fs.glob (fs w1) (resolve (nth 1 argv "")) "*.md" = [] ->
  exists r,
    main exec resolve argv w = (r, w1)
    /\ exit_status r = 1%Z
    /\ forall cmd, cmd ∈ launched w1 ->
         cmd ∈ launched w
         \/ cmd = ["pandoc"; "--version"] \/ cmd = ["pdflatex"; "--version"].
Proof.
  intros Hlen w1 Hglob.
  assert (forall cmd, cmd ∈ launched w1 ->
            cmd ∈ launched w
            \/ cmd = ["pandoc"; "--version"] \/ cmd = ["pdflatex"; "--version"])
    as Hlaunched.
  { apply (check_dependencies_stable exec
             (fun w w' => forall cmd, cmd ∈ launched w' ->
                cmd ∈ launched w
                \/ cmd = ["pandoc"; "--version"] \/ cmd = ["pdflatex"; "--version"])).
    - auto.
    - intros wa wb wc Hab Hbc cmd [Hin | Hin]%Hbc; [by apply Hab | by right].
    - intros x wa Hx cmd Hin. simpl in Hin.
      apply elem_of_app in Hin as [Hin | Hin%list_elem_of_singleton]; [by left |].
      right. subst cmd. destruct Hx as [<- | [<- | []]]; [by left | by right]. }
  unfold main. rewrite (proj2 (Nat.ltb_ge _ _) Hlen).
  pose proof (check_dependencies_never_exits exec w) as Hne.
  unfold w1 in *. destruct (check_dependencies exec w) as [[deps | e | c] w0] eqn:Hdeps.
  - rewrite (bind_Ok _ _ _ _ _ Hdeps). simpl in Hglob.
    destruct deps; cbn [negb]; [| by exists (SysExit 1)].
    rewrite (bind_Ok _ _ _ _ _ (output_zip_name_step argv w0)).
    erewrite (bind_Ok (path_exists _)) by reflexivity.
    destruct (bool_decide _); cbn [negb]; [| by exists (SysExit 1)].
    erewrite (bind_Ok (path_is_dir _)) by reflexivity.
    destruct (Fs.node (fs w0) _) as [[| ?] |]; cbn [negb];
      try (by exists (SysExit 1)).
    erewrite (bind_Ok (path_glob _ _)) by reflexivity.
    rewrite Hglob. by exists (SysExit 1).
  - rewrite (bind_Raise _ _ _ _ _ Hdeps). by exists (Raise e).
  - by destruct (Hne c).
Qed.

End Exits.

(** ** Sample runs *)

(** Two Markdown files, one of them not convertible, an archive name given. *)
Lemma sample_two_reaches :
  reaches_archive Sample.tools Sample.resolve ["prog"; "/home/phd"; "out.zip"]
    (Sample.world Sample.fs_two)
    (Sample.phd ++ ["pdf_output"]) (Sample.phd ++ ["out.zip"])
    1 ["broken.md"] (Sample.after_loop Sample.tools Sample.fs_two).
Proof. sample_reach Sample.fs_two. Qed.

(** The only Markdown file is not convertible, no archive name given. *)
Lemma sample_broken_reaches :
  reaches_archive Sample.tools Sample.resolve ["prog"; "/home/phd"]
    (Sample.world Sample.fs_broken)
    (Sample.phd ++ ["pdf_output"])
    (Sample.phd ++ ["phd_documents_20240307_120509.zip"])
    0 ["broken.md"] (Sample.after_loop Sample.tools Sample.fs_broken).
Proof. sample_reach Sample.fs_broken. Qed.

(** Two Markdown files, one of them not convertible, and a PDF left in
    the output directory by an earlier run; no archive name given. *)
Lemma sample_stray_reaches :
  reaches_archive Sample.tools Sample.resolve ["prog"; "/home/phd"]
    (Sample.world Sample.fs_stray)
    (Sample.phd ++ ["pdf_output"])
    (Sample.phd ++ ["phd_documents_20240307_120509.zip"])
    1 ["broken.md"] (Sample.after_loop Sample.tools Sample.fs_stray).
Proof. sample_reach Sample.fs_stray. Qed.

Lemma partial_failure_exit_zero_witness :
  exists w4,
    reaches_archive Sample.tools Sample.resolve ["prog"; "/home/phd"; "out.zip"]
      (Sample.world Sample.fs_two)
      (Sample.phd ++ ["pdf_output"]) (Sample.phd ++ ["out.zip"])
      1 ["broken.md"] (Sample.after_loop Sample.tools Sample.fs_two)
    /\ create_zip_archive (Sample.phd ++ ["pdf_output"]) (Sample.phd ++ ["out.zip"])
         (Sample.after_loop Sample.tools Sample.fs_two) = (Ok true, w4)
    /\ main Sample.tools Sample.resolve ["prog"; "/home/phd"; "out.zip"]
         (Sample.world Sample.fs_two) = (Ok tt, w4)
    /\ exit_status (main Sample.tools Sample.resolve ["prog"; "/home/phd"; "out.zip"]
                      (Sample.world Sample.fs_two)).1 = 0%Z.
Proof.
  exists (create_zip_archive (Sample.phd ++ ["pdf_output"]) (Sample.phd ++ ["out.zip"])
            (Sample.after_loop Sample.tools Sample.fs_two)).2.
  assert (create_zip_archive (Sample.phd ++ ["pdf_output"]) (Sample.phd ++ ["out.zip"])
            (Sample.after_loop Sample.tools Sample.fs_two)
          = (Ok true,
             (create_zip_archive (Sample.phd ++ ["pdf_output"])
                (Sample.phd ++ ["out.zip"])
                (Sample.after_loop Sample.tools Sample.fs_two)).2)) as Hzip
    by (vm_compute; reflexivity).
  split; [exact sample_two_reaches |]. split; [exact Hzip |].
  exact (partial_failure_exit_zero Sample.tools Sample.resolve _ _ _ _ _ _ _ _
           sample_two_reaches Hzip).
Defined.

Lemma create_zip_archive_nothing_witness :
  Fs.glob (fs (Sample.after_loop Sample.tools Sample.fs_broken))
          (Sample.phd ++ ["pdf_output"]) "*.pdf" = []
  /\ create_zip_archive (Sample.phd ++ ["pdf_output"])
       (Sample.phd ++ ["phd_documents_20240307_120509.zip"])
       (Sample.after_loop Sample.tools Sample.fs_broken)
     = (Ok false, Sample.after_loop Sample.tools Sample.fs_broken)
  /\ main Sample.tools Sample.resolve ["prog"; "/home/phd"]
       (Sample.world Sample.fs_broken)
     = (SysExit 1, Sample.after_loop Sample.tools Sample.fs_broken).
Proof.
  assert (Fs.glob (fs (Sample.after_loop Sample.tools Sample.fs_broken))
                  (Sample.phd ++ ["pdf_output"]) "*.pdf" = []) as Hglob
    by (vm_compute; reflexivity).
  split; [exact Hglob |].
  destruct (create_zip_archive_nothing Sample.tools Sample.resolve
              (Sample.phd ++ ["pdf_output"])
              (Sample.phd ++ ["phd_documents_20240307_120509.zip"])
              (Sample.after_loop Sample.tools Sample.fs_broken) Hglob)
    as [Hzip Hmain].
  split; [exact Hzip |].
  exact (proj1 (Hmain _ _ _ _ sample_broken_reaches)).
Defined.

Lemma no_markdown_no_conversion_witness :
  (2 <= List.length ["prog"; "/home/phd"])%nat
  /\ Fs.glob (fs (check_dependencies Sample.tools (Sample.world Sample.fs_empty)).2)
             (Sample.resolve (nth 1 ["prog"; "/home/phd"] "")) "*.md" = []
  /\ exists r,
       main Sample.tools Sample.resolve ["prog"; "/home/phd"]
         (Sample.world Sample.fs_empty)
       = (r, (check_dependencies Sample.tools (Sample.world Sample.fs_empty)).2)
       /\ exit_status r = 1%Z.
Proof.
  assert (2 <= List.length ["prog"; "/home/phd"])%nat as Hlen by (simpl; lia).
  assert (Fs.glob (fs (check_dependencies Sample.tools (Sample.world Sample.fs_empty)).2)
                  (Sample.resolve (nth 1 ["prog"; "/home/phd"] "")) "*.md" = [])
    as Hglob by (vm_compute; reflexivity).
  split; [exact Hlen |]. split; [exact Hglob |].
  destruct (no_markdown_no_conversion Sample.tools Sample.resolve
              ["prog"; "/home/phd"] (Sample.world Sample.fs_empty) Hlen Hglob)
    as (r & Hmain & Hexit & _).
  exists r. split; [exact Hmain | exact Hexit].
Defined.

(** ** The name of the archive *)








(** ** Where the archive goes and what it holds *)

Section Archive.

Variable exec : list string -> option nat -> FS -> RunResult * FS.
Variable resolve : string -> Path.


Lemma untouched_refl (k : list string) (w : World) : untouched exec k w w.
Proof. exists []. by rewrite app_nil_r. Qed.

Lemma untouched_trans (k : list string) (w1 w2 w3 : World) :
  untouched exec k w1 w2 -> untouched exec k w2 w3 -> untouched exec k w1 w3.
Proof.
  intros (c1 & Hl1 & Hf1) (c2 & Hl2 & Hf2). exists (c1 ++ c2). split.
  - by rewrite Hl2, Hl1, app_assoc.
  - intros Hq. rewrite Hf2, Hf1; [done | |]; intros cmd Hin; apply Hq;
      apply elem_of_app; auto.
Qed.

Lemma untouched_ran (k : list string) (cmd : list string) (t : option nat)
    (w : World) :
  untouched exec k w (ran cmd (exec cmd t (fs w)).2 w).
Proof.
  exists [cmd]. split; [reflexivity |]. intros Hq. simpl.
  apply Hq. by apply list_elem_of_singleton.
Qed.

Lemma untouched_lookup (k : list string) (w w' : World) :
  untouched exec k w w' ->
  (forall cmd, cmd ∈ launched w' -> quiet exec cmd k) ->
  fs w' !! k = fs w !! k.
Proof.
  intros (cmds & Hl & Hf) Hq. apply Hf. intros cmd Hin. apply Hq.
  rewrite Hl. apply elem_of_app. by right.
Qed.

Lemma untouched_launched (k : list string) (w w' : World) (cmd : list string) :
  untouched exec k w w' -> cmd ∈ launched w -> cmd ∈ launched w'.
Proof. intros (cmds & -> & _) Hin. apply elem_of_app. by left. Qed.

Lemma glob_nonempty_dir (f : FS) (dir : Path) (pat : string) :
  Fs.glob f dir pat <> [] -> Fs.node f dir = Some Dir.
Proof. unfold Fs.glob. by destruct (Fs.node f dir) as [[| ?] |]. Qed.

Lemma convert_loop_stable (R : World -> World -> Prop) (output_dir : Path)
    (md_files : list Path) (acc : nat * list string) :
  (forall w, R w w) -> (forall w1 w2 w3, R w1 w2 -> R w2 w3 -> R w1 w3) ->
  (forall cmd w, R w (ran cmd (exec cmd (Some 120%nat) (fs w)).2 w)) ->
  stable R (for_in md_files (convert_one exec output_dir) acc).
Proof.
  intros Hrefl Htrans Hrun. apply stable_for_in; try done.
  intros md [c f]. unfold convert_one. apply stable_bind; try done.
  - intros w. unfold convert_md_to_pdf.
    destruct (pdf_path_of md output_dir) as [pdf |] eqn:Hpdf; [| apply Hrefl].
    pose proof (convert_md_to_pdf_eq exec md output_dir pdf w Hpdf) as Heq.
    cbv zeta in Heq. unfold convert_md_to_pdf in Heq. rewrite Hpdf in Heq.
    rewrite Heq. apply Hrun.
  - intros []; by apply stable_ret.
Qed.

End Archive.

Lemma mkdir_spec (p : Path) (w w2 : World) :
  path_mkdir_exist_ok p w = (Ok tt, w2) -> Fs.key p <> [] ->
  launched w2 = launched w
  /\ Fs.node (fs w2) p = Some Dir
  /\ forall k, k <> Fs.key p -> fs w2 !! k = fs w !! k.
Proof.
  unfold path_mkdir_exist_ok. intros H Hk.
  destruct (Fs.node (fs w) p) as [[| c] |] eqn:Hnode; try discriminate.
  - by injection H as <-.
  - unfold create_at in H.
    destruct (Fs.at_key (fs w) (removelast (Fs.key p))) as [[| c] |];
      try discriminate.
    injection H as <-. repeat split.
    + unfold Fs.node. simpl. by apply at_key_insert_eq.
    + intros k Hne. simpl. by apply lookup_insert_ne.
Qed.

Section Archiving.

Variable exec : list string -> option nat -> FS -> RunResult * FS.
Variable resolve : string -> Path.


(** C2.  Whenever the archiver creates an archive, its members are the
    entries that a fresh listing of [*.pdf] in the output directory finds at
    that time, each under its name (followed by a slash for a directory);
    the list of successes and failures plays no part.  So every PDF file in
    the output directory is a member, and in a run of [main] so is a PDF
    file that was there before the run and that the commands of the run
    left alone, whether or not the run produced it. *)
Theorem archive_members (pdf_dir output_zip : Path) (w3 w' : World) :
  create_zip_archive pdf_dir output_zip w3 = (Ok true, w') ->
  let found := Fs.glob (fs w3) pdf_dir "*.pdf" in
  let members := map (member_name (fs w3)) found in
  Fs.node (fs w') output_zip = Some (File (ZipArchive members))
  /\ (Forall (fun p => exists c, Fs.node (fs w3) p = Some (File c)) found ->
      members = map PurePath.name found)
  /\ (forall n c,
        fnmatch "*.pdf" n = true ->
        Fs.node (fs w3) (pdf_dir ++ [n]) = Some (File c) ->
        n ∈ members)
  /\ (forall argv w success_count failed_files n c,
        reaches_archive exec resolve argv w pdf_dir output_zip
          success_count failed_files w3 ->
        fnmatch "*.pdf" n = true ->
        Fs.node (fs w) (pdf_dir ++ [n]) = Some (File c) ->
        (forall cmd, cmd ∈ launched w3 ->
           quiet exec cmd (Fs.key pdf_dir)
           /\ quiet exec cmd (Fs.key (pdf_dir ++ [n]))) ->
        n ∈ members).
Proof.
  intros (Hfound%glob_nonempty_dir & Hk & ->)%create_zip_archive_true.
  cbv zeta.
  assert (forall n, fnmatch "*.pdf" n = true ->
            Fs.key (pdf_dir ++ [n]) = Fs.key pdf_dir ++ [n]
            /\ forall f, Fs.node f (pdf_dir ++ [n]) = f !! (Fs.key pdf_dir ++ [n]))
    as Hnode.
  { intros n Hn.
    pose proof (key_snoc pdf_dir n (pdf_name_not_dotdot n Hn)) as Hkn.
    split; [exact Hkn |]. intros f. unfold Fs.node. rewrite Hkn.
    apply at_key_ne. by destruct (Fs.key pdf_dir). }
  assert (forall n c, fnmatch "*.pdf" n = true ->
            fs w3 !! (Fs.key pdf_dir ++ [n]) = Some (File c) ->
            n ∈ map (member_name (fs w3)) (Fs.glob (fs w3) pdf_dir "*.pdf"))
    as Hmember.
  { intros n c Hn Hfile.
    apply (list_elem_of_fmap_2' _ _ (pdf_dir ++ [n])).
    - apply elem_of_glob. split; [exact Hfound |]. exists n.
      split; [reflexivity |]. split; [exact Hn |]. by rewrite Hfile.
    - unfold member_name.
      by rewrite (proj2 (Hnode n Hn)), Hfile, name_snoc. }
  split; [| split; [| split]].
  - unfold Fs.node. simpl. by apply at_key_insert_eq.
  - intros Hfiles. apply map_ext_Forall. eapply Forall_impl; [exact Hfiles |].
    intros p [c Hp]. unfold member_name. by rewrite Hp.
  - intros n c Hn Hfile. apply (Hmember n c Hn).
    by rewrite <- (proj2 (Hnode n Hn)).
  - intros argv w c f n content Hreach Hn Hfile Hquiet.
    apply (Hmember n content Hn).
    destruct (Hnode n Hn) as [Hkn Hlookup].
    rewrite Hlookup in Hfile.
    destruct Hreach as (w1 & w2 & _ & Hdeps & _ & _ & Hod & Hmk & Hloop & _).
    assert (Fs.key pdf_dir <> []) as Hkey.
    { rewrite Hod, joinpath_component, key_snoc;
        [| discriminate | by split | discriminate].
      intros H%(f_equal List.length). rewrite length_app in H. simpl in H. lia. }
    assert (forall k, untouched exec k w w1) as U1.
    { intros k.
      pose proof (check_dependencies_stable exec (untouched exec k)
                    (untouched_refl exec k) (untouched_trans exec k)
                    (fun x w _ => untouched_ran exec k _ None w) w) as H.
      by rewrite Hdeps in H. }
    assert (forall k, untouched exec k w2 w3) as U3.
    { intros k.
      pose proof (convert_loop_stable exec (untouched exec k) pdf_dir
                    (Fs.glob (fs w1) (resolve (nth 1 argv "")) "*.md") (0%nat, [])
                    (untouched_refl exec k) (untouched_trans exec k)
                    (fun cmd w => untouched_ran exec k cmd _ w) w2) as H.
      by rewrite Hloop in H. }
    destruct (mkdir_spec _ _ _ Hmk Hkey) as (Hl2 & _ & Hkeep).
    assert (forall cmd, cmd ∈ launched w3 ->
              quiet exec cmd (Fs.key pdf_dir ++ [n])) as Hq3.
    { intros cmd Hin. rewrite <- Hkn. by apply Hquiet. }
    assert (forall cmd, cmd ∈ launched w1 ->
              quiet exec cmd (Fs.key pdf_dir ++ [n])) as Hq1.
    { intros cmd Hin. apply Hq3.
      apply (untouched_launched exec [] w2 w3); [apply U3 | by rewrite Hl2]. }
    rewrite (untouched_lookup exec _ _ _ (U3 _) Hq3).
    rewrite Hkeep.
    + by rewrite (untouched_lookup exec _ _ _ (U1 _) Hq1).
    + intros H%(f_equal List.length). rewrite length_app in H. simpl in H. lia.
Qed.

End Archiving.

(** The simulated [pandoc] writes nowhere but at its output path. *)
Lemma tools_quiet (cmd : list string) (k : list string) :
  (forall prog src flag dst rest,
     cmd = prog :: src :: flag :: dst :: rest ->
     Fs.key (PurePath.parse_parts dst) <> k) ->
  quiet Sample.tools cmd k.
Proof.
  intros Hdst t f. unfold Sample.tools.
  destruct cmd as [| prog [| src [| flag [| dst rest]]]]; try reflexivity.
  destruct (_ && _); [| reflexivity].
  destruct (String.eqb _ "broken.md"); [reflexivity |].
  destruct (String.eqb _ "slow.md"); [reflexivity |].
  simpl. apply lookup_insert_ne. by eapply Hdst.
Qed.



Lemma archive_members_witness :
  exists w' members,
    create_zip_archive (Sample.phd ++ ["pdf_output"])
      (Sample.phd ++ ["phd_documents_20240307_120509.zip"])
      (Sample.after_loop Sample.tools Sample.fs_stray) = (Ok true, w')
    /\ Fs.node (fs w') (Sample.phd ++ ["phd_documents_20240307_120509.zip"])
       = Some (File (ZipArchive members))
    /\ "a.pdf" ∈ members
    /\ "stray.pdf" ∈ members.
Proof.
  assert (create_zip_archive (Sample.phd ++ ["pdf_output"])
            (Sample.phd ++ ["phd_documents_20240307_120509.zip"])
            (Sample.after_loop Sample.tools Sample.fs_stray)
          = (Ok true,
             (create_zip_archive (Sample.phd ++ ["pdf_output"])
                (Sample.phd ++ ["phd_documents_20240307_120509.zip"])
                (Sample.after_loop Sample.tools Sample.fs_stray)).2)) as Hzip
    by (vm_compute; reflexivity).
  destruct (archive_members Sample.tools Sample.resolve _ _ _ _ Hzip)
    as (Hnode & _ & Hnow & Hstray).
  eexists _, _. split; [exact Hzip |]. split; [exact Hnode |]. split.
  - apply (Hnow "a.pdf" (Blob "%PDF")); [reflexivity | vm_compute; reflexivity].
  - apply (Hstray _ _ _ _ "stray.pdf" (Blob "old") sample_stray_reaches);
      [reflexivity | reflexivity |].
    intros cmd Hin. apply list_elem_of_In in Hin. vm_compute in Hin.
    split; apply tools_quiet; intros prog src flag dst rest ->;
      repeat (destruct Hin as [Hin | Hin]; [try discriminate Hin |]);
      try (injection Hin as <- <- <- <- <-; vm_compute; discriminate);
      try (by destruct Hin).
Defined.

Lemma main_inv_witness :
  exists w' output_dir output_zip c f w3,
    main Sample.tools Sample.resolve ["prog"; "/home/phd"; "out.zip"]
      (Sample.world Sample.fs_two) = (Ok tt, w')
    /\ reaches_archive Sample.tools Sample.resolve ["prog"; "/home/phd"; "out.zip"]
         (Sample.world Sample.fs_two) output_dir output_zip c f w3
    /\ create_zip_archive output_dir output_zip w3 = (Ok true, w').
Proof.
  assert (main Sample.tools Sample.resolve ["prog"; "/home/phd"; "out.zip"]
            (Sample.world Sample.fs_two)
          = (Ok tt, (main Sample.tools Sample.resolve ["prog"; "/home/phd"; "out.zip"]
                       (Sample.world Sample.fs_two)).2)) as Hmain
    by (vm_compute; reflexivity).
  destruct (main_inv Sample.tools Sample.resolve _ _ _ Hmain)
    as (od & oz & c & f & w3 & Hreach & Hzip).
  exists (main Sample.tools Sample.resolve ["prog"; "/home/phd"; "out.zip"]
            (Sample.world Sample.fs_two)).2, od, oz, c, f, w3.
  split; [exact Hmain |]. split; [exact Hreach | exact Hzip].
Defined.

(** * Further properties *)

(** ** Exit statuses *)

Lemma never_exits_ret {A} (a : A) : never_exits (ret a).
Proof. by intros w c. Qed.

Lemma never_exits_raise {A} (e : Exn) : never_exits (@raise A e).
Proof. by intros w c. Qed.

Lemma never_exits_try_except {A} (m : M A) (h : Exn -> option (M A)) :
  never_exits m -> (forall e k, h e = Some k -> never_exits k) ->
  never_exits (try_except m h).
Proof.
  intros Hm Hh w c. unfold try_except. specialize (Hm w).
  destruct (m w) as [[a | e | c'] w']; simpl in *; [done | | apply Hm].
  destruct (h e) as [k |] eqn:E; [by eapply Hh | done].
Qed.

Lemma never_exits_subprocess_run
    (exec : list string -> option nat -> FS -> RunResult * FS)
    (cmd : list string) (t : option nat) :
  never_exits (subprocess_run exec cmd t).
Proof.
  intros w c. rewrite subprocess_run_eq. simpl.
  by destruct (exec cmd t (fs w)).1.
Qed.

Lemma never_exits_create_at (k : list string) (n : Node) :
  never_exits (create_at k n).
Proof.
  intros w c. unfold create_at.
  by destruct (Fs.at_key (fs w) (removelast k)) as [[| ?] |].
Qed.

Lemma never_exits_mkdir (p : Path) : never_exits (path_mkdir_exist_ok p).
Proof.
  intros w c. unfold path_mkdir_exist_ok.
  destruct (Fs.node (fs w) p) as [[| ?] |]; try done.
  apply never_exits_create_at.
Qed.

Lemma never_exits_stat (p : Path) : never_exits (path_stat p).
Proof. intros w c. unfold path_stat. by destruct (Fs.node (fs w) p). Qed.

Lemma never_exits_ZipFile_open (p : Path) : never_exits (ZipFile_open p).
Proof.
  assert (never_exits (let* _ := create_at (Fs.key p) (File (ZipArchive [])) in
                       ret {| filename := p; namelist := [] |})) as H
    by (apply never_exits_bind; [apply never_exits_create_at |
                                 intros; apply never_exits_ret]).
  intros w c. unfold ZipFile_open.
  destruct (Fs.node (fs w) p) as [[| ?] |]; try done; apply H.
Qed.

Lemma never_exits_ZipFile_write (zipf : ZipFile) (src : Path) (arcname : string) :
  never_exits (ZipFile_write zipf src arcname).
Proof. intros w c. unfold ZipFile_write. by destruct (Fs.node (fs w) src). Qed.

Lemma never_exits_create_zip_archive (pdf_dir output_zip : Path) :
  never_exits (create_zip_archive pdf_dir output_zip).
Proof.
  unfold create_zip_archive. apply never_exits_bind; [by intros w c |].
  intros [| p rest]; [apply never_exits_ret |].
  apply never_exits_bind; [apply never_exits_ZipFile_open |]. intros zipf.
  apply never_exits_bind; [| intros; apply never_exits_ret].
  apply never_exits_for_in. intros x z. apply never_exits_ZipFile_write.
Qed.

Section ExitStatus.

Variable exec : list string -> option nat -> FS -> RunResult * FS.
Variable resolve : string -> Path.

Lemma never_exits_convert_md_to_pdf (md od : Path) :
  never_exits (convert_md_to_pdf exec md od).
Proof.
  unfold convert_md_to_pdf. destruct (pdf_path_of md od); [| apply never_exits_raise].
  apply never_exits_try_except.
  - apply never_exits_bind; [apply never_exits_subprocess_run |].
    intros r. destruct (negb _); apply never_exits_ret.
  - intros e k Hk. destruct e; injection Hk as <-; apply never_exits_ret.
Qed.

Lemma never_exits_convert_loop (od : Path) (md_files : list Path)
    (acc : nat * list string) :
  never_exits (for_in md_files (convert_one exec od) acc).
Proof.
  apply never_exits_for_in. intros md [c f]. unfold convert_one.
  apply never_exits_bind; [apply never_exits_convert_md_to_pdf |].
  intros []; apply never_exits_ret.
Qed.

Lemma exits_only_1_never {A} (m : M A) : never_exits m -> exits_only_1 m.
Proof. intros H w c Hc. by destruct (H w c). Qed.

Lemma exits_only_1_bind {A B} (m : M A) (k : A -> M B) :
  exits_only_1 m -> (forall a, exits_only_1 (k a)) -> exits_only_1 (bind m k).
Proof.
  intros Hm Hk w c. unfold bind. specialize (Hm w).
  destruct (m w) as [[a | e | c'] w']; simpl in *; [apply Hk | done |].
  intros [= <-]. by apply Hm.
Qed.

Lemma exits_only_1_sys_exit {A} : exits_only_1 (@sys_exit A 1).
Proof. by intros w c [= <-]. Qed.

Lemma main_exits_only_1 (argv : list string) :
  exits_only_1 (main exec resolve argv).
Proof.
  unfold main.
  destruct (List.length argv <? 2)%nat; [apply exits_only_1_sys_exit |].
  apply exits_only_1_bind;
    [apply exits_only_1_never, check_dependencies_never_exits |].
  intros deps. destruct (negb deps); [apply exits_only_1_sys_exit |].
  apply exits_only_1_bind.
  { apply exits_only_1_never. intros w c.
    rewrite output_zip_name_step. done. }
  intros name. apply exits_only_1_bind; [by intros w c |].
  intros present. destruct (negb present); [apply exits_only_1_sys_exit |].
  apply exits_only_1_bind; [by intros w c |].
  intros isdir. destruct (negb isdir); [apply exits_only_1_sys_exit |].
  apply exits_only_1_bind; [by intros w c |].
  intros [| md mds]; [apply exits_only_1_sys_exit |].
  apply exits_only_1_bind; [apply exits_only_1_never, never_exits_mkdir |].
  intros _. apply exits_only_1_bind;
    [apply exits_only_1_never, never_exits_convert_loop |].
  intros [c f]. apply exits_only_1_bind;
    [apply exits_only_1_never, never_exits_create_zip_archive |].
  intros []; [| apply exits_only_1_sys_exit].
  apply exits_only_1_bind; [apply exits_only_1_never, never_exits_stat |].
  intros _. apply exits_only_1_never, never_exits_ret.
Qed.

(** X2.  Whatever the arguments, the tools and the file system, a run of
    [main] ends with exit status 0 or 1, and with 0 only by returning
    normally: every [sys.exit] of the script carries 1 and an uncaught
    exception gives 1. *)
Theorem main_exit_status (argv : list string) (w : World) :
  (exit_status (main exec resolve argv w).1 = 0%Z
   \/ exit_status (main exec resolve argv w).1 = 1%Z)
  /\ (exit_status (main exec resolve argv w).1 = 0%Z
      <-> (main exec resolve argv w).1 = Ok tt).
Proof.
  pose proof (main_exits_only_1 argv w) as H.
  destruct (main exec resolve argv w).1 as [[] | e | c]; simpl in *.
  - split; [by left | done].
  - split; [by right | done].
  - rewrite (H c eq_refl). split; [by right | done].
Qed.

End ExitStatus.

(** ** The dependency checker, further *)

Section Probing.

Variable exec : list string -> option nat -> FS -> RunResult * FS.
Variable resolve : string -> Path.

(** When the loop of the checker gets to its end, every invocation either
    completed or was not found. *)
Lemma check_loop_inv (items : list (string * string)) (missing found : list string)
    (w w' : World) :
  for_in items (check_tool exec) missing w = (Ok found, w') ->
  Forall (fun x => started x.2 = true \/ not_found x.2 = true)
         (probes exec items (fs w)).
Proof.
  revert missing w. induction items as [| [tool cmd] items IH]; intros missing w.
  - intros _. constructor.
  - cbn [probes for_in]. pose proof (check_tool_eq exec tool cmd missing w) as Hstep.
    cbv zeta in Hstep.
    destruct (exec (String.words cmd) None (fs w)) as [r f'] eqn:Hr.
    simpl in Hstep. intros Hrun.
    apply bind_Ok_inv in Hrun as (m1 & w1 & Hm & Hrest).
    pose proof (eq_trans (eq_sym Hstep) Hm) as Hm'. constructor.
    + simpl. destruct r as [rc err | e]; [by left |].
      destruct e; simpl in Hm'; try discriminate Hm'. by right.
    + assert (w1 = ran (String.words cmd) f' w) as -> by (by injection Hm').
      exact (IH m1 (ran (String.words cmd) f' w) Hrest).
Qed.

(** A checker that returns has run both probes, in order, and nothing
    else. *)
Lemma check_dependencies_launched (w w1 : World) (b : bool) :
  check_dependencies exec w = (Ok b, w1) ->
  launched w1 = launched w ++ probe_cmds.
Proof.
  unfold check_dependencies.
  intros (missing & w' & Hloop & Hret)%bind_Ok_inv.
  assert (w1 = w') as -> by (destruct missing; by injection Hret).
  pose proof (check_loop_inv _ _ _ _ _ Hloop) as Hall.
  destruct (check_loop_spec exec required [] w Hall) as (w'' & Hrun & Hl).
  rewrite Hloop in Hrun. by injection Hrun as _ <-.
Qed.

(** The loop of the checker when an invocation raises something else than
    command-not-found: the exception leaves the loop, and the tools after
    that one are not invoked. *)
Lemma check_loop_raises (items : list (string * string)) (missing : list string)
    (w : World) (pre post : list (string * RunResult)) (tool : string) (e : Exn) :
  probes exec items (fs w) = pre ++ (tool, RunRaises e) :: post ->
  Forall (fun x => started x.2 = true \/ not_found x.2 = true) pre ->
  e <> FileNotFoundError ->
  exists w',
    for_in items (check_tool exec) missing w = (Raise e, w')
    /\ launched w'
       = launched w
         ++ map (fun x => String.words x.2) (take (S (List.length pre)) items).
Proof.
  revert missing w pre. induction items as [| [tool' cmd] items IH];
    intros missing w pre Hprobes Hpre He.
  - by destruct pre.
  - cbn [probes for_in] in *.
    pose proof (check_tool_eq exec tool' cmd missing w) as Hstep.
    cbv zeta in Hstep.
    destruct (exec (String.words cmd) None (fs w)) as [r f'] eqn:Hr.
    simpl in Hstep. set (w1 := ran (String.words cmd) f' w) in *.
    destruct pre as [| [t0 r0] pre].
    + simpl in Hprobes. injection Hprobes as -> -> _.
      assert (check_tool exec (tool, cmd) missing w = (Raise e, w1)) as Hraise
        by (etrans; [exact Hstep | by destruct e]).
      exists w1. by rewrite (bind_Raise _ _ _ _ _ Hraise).
    + simpl in Hprobes. injection Hprobes as -> -> Hprobes.
      apply Forall_cons in Hpre as [Hr0 Hpre]. simpl in Hr0.
      assert (exists m1, check_tool exec (t0, cmd) missing w = (Ok m1, w1))
        as [m1 Hok].
      { destruct r0 as [rc err | e0]; [by exists missing |].
        destruct Hr0 as [Hr0 | Hr0]; [discriminate |].
        destruct e0; try discriminate. by exists (missing ++ [t0]). }
      rewrite (bind_Ok _ _ _ _ _ Hok).
      destruct (IH m1 w1 pre Hprobes Hpre He) as (w' & Hrun & Hl).
      exists w'. split; [exact Hrun |]. rewrite Hl. simpl.
      by rewrite <- app_assoc.
Qed.

(** X3.  When a required tool is not found (and every invocation either
    completes or is not found), the run still probes both tools, then ends
    with [sys.exit(1)]: nothing but the two probes is launched, and the
    input directory is not looked at. *)
Theorem missing_dependency_exit (argv : list string) (w : World) :
  (2 <= List.length argv)%nat ->
  let results := probes exec required (fs w) in
  Forall (fun x => started x.2 = true \/ not_found x.2 = true) results ->
  Exists (fun x => not_found x.2 = true) results ->
  exists w',
    check_dependencies exec w = (Ok false, w')
    /\ main exec resolve argv w = (SysExit 1, w')
    /\ launched w' = launched w ++ probe_cmds.
Proof.
  intros Hlen results Hall Hmiss.
  destruct (check_loop_spec exec required [] w Hall) as (w' & Hrun & Hl).
  fold results in Hrun. simpl in Hrun.
  assert (check_dependencies exec w = (Ok false, w')) as Hdeps.
  { unfold check_dependencies. rewrite (bind_Ok _ _ _ _ _ Hrun).
    destruct (map fst _) eqn:Hmap; [| reflexivity].
    apply fmap_nil_inv in Hmap. apply Exists_exists in Hmiss as (x & Hin & Hx).
    assert (In x (List.filter (fun x => not_found x.2) results)) as Hin'
      by (apply filter_In; split; [by apply list_elem_of_In | done]).
    rewrite Hmap in Hin'. destruct Hin'. }
  exists w'. split; [exact Hdeps |]. split; [| exact Hl].
  unfold main. rewrite (proj2 (Nat.ltb_ge _ _) Hlen).
  by rewrite (bind_Ok _ _ _ _ _ Hdeps).
Qed.

(** X4.  When the invocation of a required tool raises an exception other
    than command-not-found, after invocations that completed or were not
    found, the checker does not return: the exception leaves it, the tools
    after that one are not invoked, and the run ends with this uncaught
    exception, exit status 1. *)
Theorem check_dependencies_propagates (argv : list string) (w : World)
    (pre post : list (string * RunResult)) (tool : string) (e : Exn) :
  probes exec required (fs w) = pre ++ (tool, RunRaises e) :: post ->
  Forall (fun x => started x.2 = true \/ not_found x.2 = true) pre ->
  e <> FileNotFoundError ->
  exists w',
    check_dependencies exec w = (Raise e, w')
    /\ launched w' = launched w ++ take (S (List.length pre)) probe_cmds
    /\ ((2 <= List.length argv)%nat ->
        main exec resolve argv w = (Raise e, w')
        /\ exit_status (main exec resolve argv w).1 = 1%Z).
Proof.
  intros Hprobes Hpre He.
  destruct (check_loop_raises required [] w pre post tool e Hprobes Hpre He)
    as (w' & Hrun & Hl).
  assert (check_dependencies exec w = (Raise e, w')) as Hdeps
    by (unfold check_dependencies; by rewrite (bind_Raise _ _ _ _ _ Hrun)).
  exists w'. split; [exact Hdeps |]. split.
  - rewrite Hl. f_equal. by destruct pre as [| ? [| ? ?]].
  - intros Hlen. unfold main. rewrite (proj2 (Nat.ltb_ge _ _) Hlen).
    by rewrite (bind_Raise _ _ _ _ _ Hdeps).
Qed.

End Probing.

Lemma missing_dependency_exit_witness :
  (2 <= List.length ["prog"; "/nowhere"])%nat
  /\ Exists (fun x => not_found x.2 = true)
            (probes Sample.no_pdflatex required Sample.fs_two)
  /\ exists w',
       main Sample.no_pdflatex Sample.resolve ["prog"; "/nowhere"]
         (Sample.world Sample.fs_two) = (SysExit 1, w')
       /\ launched w' = probe_cmds.
Proof.
  assert (2 <= List.length ["prog"; "/nowhere"])%nat as Hlen by (simpl; lia).
  assert (Forall (fun x => started x.2 = true \/ not_found x.2 = true)
                 (probes Sample.no_pdflatex required Sample.fs_two)) as Hall
    by (repeat constructor; simpl; auto).
  assert (Exists (fun x => not_found x.2 = true)
                 (probes Sample.no_pdflatex required Sample.fs_two)) as Hmiss
    by (apply Exists_cons_tl, Exists_cons_hd; reflexivity).
  split; [exact Hlen |]. split; [exact Hmiss |].
  destruct (missing_dependency_exit Sample.no_pdflatex Sample.resolve
              ["prog"; "/nowhere"] (Sample.world Sample.fs_two) Hlen Hall Hmiss)
    as (w' & _ & Hmain & Hl).
  exists w'. split; [exact Hmain | exact Hl].
Defined.

Lemma check_dependencies_propagates_witness :
  probes Sample.no_permission required Sample.fs_two
  = [] ++ ("pandoc", RunRaises PermissionError)
          :: [("pdflatex", CompletedProcess 0 "")]
  /\ exists w',
       check_dependencies Sample.no_permission (Sample.world Sample.fs_two)
       = (Raise PermissionError, w')
       /\ launched w' = [["pandoc"; "--version"]].
Proof.
  assert (probes Sample.no_permission required Sample.fs_two
          = [] ++ ("pandoc", RunRaises PermissionError)
                  :: [("pdflatex", CompletedProcess 0 "")]) as Hprobes
    by reflexivity.
  split; [exact Hprobes |].
  destruct (check_dependencies_propagates Sample.no_permission Sample.resolve
              ["prog"; "/home/phd"] (Sample.world Sample.fs_two) _ _ _ _
              Hprobes (List.Forall_nil _) ltac:(discriminate))
    as (w' & Hdeps & Hl & _).
  exists w'. split; [exact Hdeps | exact Hl].
Defined.

(** ** What the archiver touches *)

Lemma bind_ret_snd {A B} (m : M A) (b : B) (w : World) :
  (bind m (fun _ => ret b) w).2 = (m w).2.
Proof. unfold bind. by destruct (m w) as [[? | ? | ?] ?]. Qed.

Lemma create_at_effect (k : list string) (n : Node) (w : World) :
  launched (create_at k n w).2 = launched w
  /\ clock (create_at k n w).2 = clock w
  /\ forall k', k' <> k -> fs (create_at k n w).2 !! k' = fs w !! k'.
Proof.
  unfold create_at.
  destruct (Fs.at_key (fs w) (removelast k)) as [[| ?] |]; simpl; try done.
  repeat split. intros k' Hk'. by apply lookup_insert_ne.
Qed.

Lemma add_pdf_effect (p : Path) (zipf : ZipFile) (w : World) :
  launched (add_pdf p zipf w).2 = launched w
  /\ clock (add_pdf p zipf w).2 = clock w
  /\ (forall k, k <> Fs.key (filename zipf) ->
        fs (add_pdf p zipf w).2 !! k = fs w !! k)
  /\ forall z, (add_pdf p zipf w).1 = Ok z -> filename z = filename zipf.
Proof.
  unfold add_pdf, ZipFile_write.
  destruct (Fs.node (fs w) p) as [n |]; simpl; [| by repeat split].
  repeat split.
  - intros k Hk. by apply lookup_insert_ne.
  - by intros z [= <-].
Qed.

Lemma add_pdf_loop_effect (pdf_files : list Path) (zipf : ZipFile) (w : World) :
  launched (for_in pdf_files add_pdf zipf w).2 = launched w
  /\ clock (for_in pdf_files add_pdf zipf w).2 = clock w
  /\ forall k, k <> Fs.key (filename zipf) ->
       fs (for_in pdf_files add_pdf zipf w).2 !! k = fs w !! k.
Proof.
  revert zipf w. induction pdf_files as [| p rest IH]; intros zipf w;
    [simpl; by repeat split |].
  cbn [for_in]. unfold bind.
  destruct (add_pdf_effect p zipf w) as (Hl & Hc & Hf & Hname).
  destruct (add_pdf p zipf w) as [[z | e | c] w1]; simpl in *;
    [| by repeat split | by repeat split].
  destruct (IH z w1) as (Hl' & Hc' & Hf').
  rewrite (Hname z eq_refl) in Hf'.
  rewrite Hl', Hc', Hl, Hc. repeat split.
  intros k Hk. by rewrite Hf', Hf.
Qed.

(** The archiver launches no command, does not read the clock and writes
    nowhere but at the archive path, whatever its outcome. *)
Lemma create_zip_archive_effect (pdf_dir output_zip : Path) (w : World) :
  launched (create_zip_archive pdf_dir output_zip w).2 = launched w
  /\ clock (create_zip_archive pdf_dir output_zip w).2 = clock w
  /\ forall k, k <> Fs.key output_zip ->
       fs (create_zip_archive pdf_dir output_zip w).2 !! k = fs w !! k.
Proof.
  destruct (create_zip_archive pdf_dir output_zip w) as [r w'] eqn:H.
  cbn [snd]. unfold create_zip_archive in H.
  erewrite (bind_Ok (path_glob _ _)) in H by reflexivity.
  destruct (Fs.glob (fs w) pdf_dir "*.pdf") as [| p rest];
    [injection H as _ <-; by repeat split |].
  set (pdf_files := p :: rest) in *.
  destruct (create_at_effect (Fs.key output_zip) (File (ZipArchive [])) w)
    as (Hl1 & Hc1 & Hf1).
  unfold bind at 1 in H.
  destruct (ZipFile_open output_zip w) as [[zipf | e | c] w1] eqn:Hopen.
  - assert (filename zipf = output_zip
            /\ w1 = (create_at (Fs.key output_zip) (File (ZipArchive [])) w).2)
      as [Hname ->].
    { unfold ZipFile_open in Hopen.
      destruct (Fs.node (fs w) output_zip) as [[| ?] |]; try discriminate;
        unfold bind in Hopen;
        destruct (create_at _ _ w) as [[[] | ? | ?] w1']; try discriminate;
        by injection Hopen as <- <-. }
    destruct (add_pdf_loop_effect pdf_files zipf
                (create_at (Fs.key output_zip) (File (ZipArchive [])) w).2)
      as (Hl2 & Hc2 & Hf2).
    rewrite Hname in Hf2.
    apply (f_equal snd) in H. cbn [snd] in H.
    rewrite (bind_ret_snd (for_in pdf_files add_pdf zipf) true) in H. subst w'.
    rewrite Hl2, Hc2, Hl1, Hc1. repeat split.
    intros k Hk. by rewrite Hf2, Hf1.
  - injection H as _ <-.
    assert (w1 = (create_at (Fs.key output_zip) (File (ZipArchive [])) w).2
            \/ w1 = w) as [-> | ->]; [| done | by repeat split].
    unfold ZipFile_open in Hopen.
    destruct (Fs.node (fs w) output_zip) as [[| ?] |];
      try (right; by injection Hopen);
      unfold bind in Hopen;
      destruct (create_at _ _ w) as [[[] | ? | ?] w1']; try discriminate;
      left; by injection Hopen.
  - destruct (never_exits_ZipFile_open output_zip w c). by rewrite Hopen.
Qed.

(** X7.  The archiver launches no command, never calls [sys.exit] and
    writes nowhere but at the archive path: whatever its outcome, every
    other entry of the file system is as it was, the Markdown sources and
    the PDF files it packs included. *)
Theorem create_zip_archive_frame (pdf_dir output_zip : Path) (w : World) :
  launched (create_zip_archive pdf_dir output_zip w).2 = launched w
  /\ (forall k, k <> Fs.key output_zip ->
        fs (create_zip_archive pdf_dir output_zip w).2 !! k = fs w !! k)
  /\ (forall p, p ∈ Fs.glob (fs w) pdf_dir "*.pdf" ->
        Fs.key p <> Fs.key output_zip ->
        Fs.node (fs (create_zip_archive pdf_dir output_zip w).2) p
        = Fs.node (fs w) p)
  /\ forall c, (create_zip_archive pdf_dir output_zip w).1 <> SysExit c.
Proof.
  destruct (create_zip_archive_effect pdf_dir output_zip w) as (Hl & _ & Hf).
  split; [exact Hl |]. split; [exact Hf |]. split.
  - intros p Hp Hk. unfold Fs.node.
    pose proof (glob_pdf_exists (fs w) pdf_dir) as Hall.
    rewrite Forall_forall in Hall. destruct (Hall p Hp) as [_ Hne].
    rewrite !at_key_ne by done. by apply Hf.
  - apply never_exits_create_zip_archive.
Qed.

(** ** Archiving again, and archiving what was converted *)



(** A PDF file of the listed directory is a member under its own name. *)
Lemma pdf_file_member (f : FS) (pdf_dir : Path) (n : string) (c : Content) :
  Fs.node f pdf_dir = Some Dir ->
  fnmatch "*.pdf" n = true ->
  Fs.node f (pdf_dir ++ [n]) = Some (File c) ->
  n ∈ map (member_name f) (Fs.glob f pdf_dir "*.pdf").
Proof.
  intros Hdir Hn Hfile.
  apply (list_elem_of_fmap_2' _ _ (pdf_dir ++ [n])).
  - apply elem_of_glob. split; [exact Hdir |]. exists n.
    split; [reflexivity |]. split; [exact Hn |].
    unfold Fs.node in Hfile.
    rewrite (key_snoc _ _ (pdf_name_not_dotdot n Hn)) in Hfile.
    rewrite at_key_ne in Hfile by (by destruct (Fs.key pdf_dir)).
    by rewrite Hfile.
  - unfold member_name. by rewrite Hfile, name_snoc.
Qed.



Section Composition.

Variable exec : list string -> option nat -> FS -> RunResult * FS.

(** X10.  The output path of a conversion is named [*.pdf] and lies in the
    output directory, so the archiver finds it: whenever the archiver
    succeeds on the output directory and the output file of an input is
    there, the archive holds it under the input's stem followed by
    [.pdf]. *)
Theorem converted_pdf_archived (md_file output_dir : Path) :
  component (PurePath.name md_file) ->
  exists pdf_path,
    pdf_path_of md_file output_dir = Some pdf_path
    /\ fnmatch "*.pdf" (PurePath.name pdf_path) = true
    /\ PurePath.parent pdf_path = output_dir
    /\ forall output_zip w3 w' c,
         create_zip_archive output_dir output_zip w3 = (Ok true, w') ->
         Fs.node (fs w3) pdf_path = Some (File c) ->
         exists members,
           Fs.node (fs w') output_zip = Some (File (ZipArchive members))
           /\ (PurePath.stem (PurePath.name md_file) +:+ ".pdf") ∈ members.
Proof.
  intros Hname. eexists. split; [by apply pdf_path_of_component |].
  rewrite name_snoc, parent_snoc.
  assert (fnmatch "*.pdf" (PurePath.stem (PurePath.name md_file) +:+ ".pdf") = true)
    as Hmatch by (apply fnmatch_star_literal; [by split | eauto]).
  split; [exact Hmatch |]. split; [reflexivity |].
  intros output_zip w3 w' c Hzip Hfile.
  apply create_zip_archive_true in Hzip as (Hfound%glob_nonempty_dir & Hk & ->).
  eexists. split.
  - unfold Fs.node. simpl. by apply at_key_insert_eq.
  - by apply (pdf_file_member _ _ _ c).
Qed.

End Composition.


Lemma converted_pdf_archived_witness :
  component (PurePath.name (Sample.phd ++ ["a.md"]))
  /\ exists pdf_path,
       pdf_path_of (Sample.phd ++ ["a.md"]) (Sample.phd ++ ["pdf_output"])
       = Some pdf_path
       /\ fnmatch "*.pdf" (PurePath.name pdf_path) = true.
Proof.
  assert (component (PurePath.name (Sample.phd ++ ["a.md"]))) as Hname
    by (split; [discriminate | reflexivity]).
  split; [exact Hname |].
  destruct (converted_pdf_archived (Sample.phd ++ ["a.md"])
              (Sample.phd ++ ["pdf_output"]) Hname)
    as (pdf & Hpdf & Hmatch & _).
  exists pdf. split; [exact Hpdf | exact Hmatch].
Defined.

(** ** The driver, further *)

Lemma filter_split_length {A} (p : A -> bool) (l : list A) :
  (List.length (List.filter (fun x => negb (p x)) l)
   + List.length (List.filter p l) = List.length l)%nat.
Proof.
  induction l as [| x l IH]; simpl; [reflexivity |].
  destruct (p x); simpl; lia.
Qed.

Section Driving.

Variable exec : list string -> option nat -> FS -> RunResult * FS.
Variable resolve : string -> Path.

(** X5.  When the name [pdf_output] in the input directory is taken by a
    regular file, creating the output directory raises [FileExistsError],
    which nothing catches: the run ends with exit status 1 right after
    discovery, before any conversion is launched. *)
Theorem output_dir_taken (argv : list string) (w w1 : World) (c : Content) :
  (2 <= List.length argv)%nat ->
  check_dependencies exec w = (Ok true, w1) ->
  let input_dir := resolve (nth 1 argv "") in
  Fs.node (fs w1) input_dir = Some Dir ->
  Fs.glob (fs w1) input_dir "*.md" <> [] ->
  Fs.node (fs w1) (PurePath.joinpath input_dir "pdf_output") = Some (File c) ->
  main exec resolve argv w = (Raise FileExistsError, w1)
  /\ exit_status (main exec resolve argv w).1 = 1%Z
  /\ launched w1 = launched w ++ probe_cmds.
Proof.
  intros Hlen Hdeps input_dir Hdir Hmd Hfile.
  assert (main exec resolve argv w = (Raise FileExistsError, w1)) as Hmain.
  { unfold main. rewrite (proj2 (Nat.ltb_ge _ _) Hlen).
    rewrite (bind_Ok _ _ _ _ _ Hdeps). cbn [negb].
    rewrite (bind_Ok _ _ _ _ _ (output_zip_name_step argv w1)).
    erewrite (bind_Ok (path_exists _)) by reflexivity.
    fold input_dir.
    rewrite bool_decide_eq_true_2 by (rewrite Hdir; eauto). cbn [negb].
    erewrite (bind_Ok (path_is_dir _)) by reflexivity.
    rewrite Hdir. cbn [negb].
    erewrite (bind_Ok (path_glob _ _)) by reflexivity.
    destruct (Fs.glob (fs w1) input_dir "*.md") as [| md mds]; [done |].
    apply bind_Raise. unfold path_mkdir_exist_ok. by rewrite Hfile. }
  split; [exact Hmain |]. split; [by rewrite Hmain |].
  by apply (check_dependencies_launched exec w w1 true).
Qed.


(** X14.  For discovered Markdown files the success count of the
    conversion loop is the number of conversions that returned true, and
    the failure list is empty exactly when all of them did, that is when
    the count equals the number of files. *)
Theorem conversion_loop_successes (output_dir : Path) (md_files : list Path)
    (w : World) :
  Forall markdown md_files ->
  let convs := conversions exec output_dir md_files w in
  exists success_count failed_files w',
    for_in md_files (convert_one exec output_dir) (0%nat, []) w
    = (Ok (success_count, failed_files), w')
    /\ success_count
       = List.length (List.filter (fun x => negb (failed x)) convs)
    /\ (failed_files = [] <-> success_count = List.length md_files)
    /\ (failed_files = [] <-> Forall (fun x => x.2 = Ok true) convs).
Proof.
  intros Hmd convs.
  destruct (convert_loop_spec exec output_dir md_files 0 [] w Hmd)
    as (w' & Hrun & Hfst & _ & _ & _).
  fold convs in Hrun, Hfst. simpl in Hrun.
  eexists _, _, w'. split; [exact Hrun |].
  pose proof (filter_split_length failed convs) as Hsum.
  assert (List.length convs = List.length md_files) as Hlen
    by (by rewrite <- Hfst, length_map).
  assert (List.filter failed convs = []
          <-> Forall (fun x => x.2 = Ok true) convs) as Hnone.
  { clear. induction convs as [| x l IH]; simpl.
    - split; [constructor | done].
    - destruct x as [p [[|] | e | c]]; unfold failed at 1; simpl;
        (split; [try discriminate | intros [H1 H2]%Forall_cons;
                                      try discriminate H1]).
      + intros H. constructor; [done | by apply IH].
      + by apply IH. }
  split; [| split].
  - reflexivity.
  - split.
    + intros Hnil%fmap_nil_inv. rewrite Hnil in Hsum. simpl in Hsum. lia.
    + intros Hall.
      assert (List.filter failed convs = []) as ->
        by (apply length_zero_iff_nil; lia).
      reflexivity.
  - rewrite <- Hnone. split; [apply fmap_nil_inv | intros ->; reflexivity].
Qed.

End Driving.

Lemma output_dir_taken_witness :
  exists w1,
    check_dependencies Sample.tools (Sample.world Cases.fs_blocked) = (Ok true, w1)
    /\ main Sample.tools Sample.resolve ["prog"; "/home/phd"]
         (Sample.world Cases.fs_blocked)
       = (Raise FileExistsError, w1)
    /\ launched w1 = probe_cmds.
Proof.
  set (w := Sample.world Cases.fs_blocked).
  set (w1 := (check_dependencies Sample.tools w).2).
  assert (check_dependencies Sample.tools w = (Ok true, w1)) as Hdeps
    by (vm_compute; reflexivity).
  assert (2 <= List.length ["prog"; "/home/phd"])%nat as Hlen by (simpl; lia).
  assert (Fs.node (fs w1) (Sample.resolve (nth 1 ["prog"; "/home/phd"] ""))
          = Some Dir) as Hdir by (vm_compute; reflexivity).
  assert (Fs.glob (fs w1) (Sample.resolve (nth 1 ["prog"; "/home/phd"] "")) "*.md"
          <> []) as Hmd by (vm_compute; discriminate).
  assert (Fs.node (fs w1)
            (PurePath.joinpath (Sample.resolve (nth 1 ["prog"; "/home/phd"] ""))
               "pdf_output")
          = Some (File (Blob "not a directory"))) as Hfile
    by (vm_compute; reflexivity).
  destruct (output_dir_taken Sample.tools Sample.resolve ["prog"; "/home/phd"]
              w w1 (Blob "not a directory") Hlen Hdeps Hdir Hmd Hfile)
    as (Hmain & _ & Hl).
  exists w1. split; [exact Hdeps |]. split; [exact Hmain | exact Hl].
Defined.


Lemma conversion_loop_successes_witness :
  Forall markdown [Sample.phd ++ ["a.md"]; Sample.phd ++ ["broken.md"]]
  /\ exists success_count failed_files w',
       for_in [Sample.phd ++ ["a.md"]; Sample.phd ++ ["broken.md"]]
         (convert_one Sample.tools (Sample.phd ++ ["pdf_output"])) (0%nat, [])
         (Sample.world Sample.fs_two)
       = (Ok (success_count, failed_files), w')
       /\ success_count = 1%nat
       /\ failed_files <> [].
Proof.
  assert (Forall markdown [Sample.phd ++ ["a.md"]; Sample.phd ++ ["broken.md"]])
    as Hmd by (repeat constructor).
  split; [exact Hmd |].
  destruct (conversion_loop_successes Sample.tools (Sample.phd ++ ["pdf_output"])
              _ (Sample.world Sample.fs_two) Hmd)
    as (c & f & w' & Hrun & Hc & Hnone & _).
  vm_compute in Hc. subst c.
  exists 1%nat, f, w'. split; [exact Hrun |]. split; [reflexivity |].
  intros E. apply Hnone in E. discriminate E.
Defined.

(** ** What a run writes *)


Section Frame.

Variable exec : list string -> option nat -> FS -> RunResult * FS.
Variable resolve : string -> Path.




End Frame.


(** ** The invoker on a path without a name *)

Section Nameless.

Variable exec : list string -> option nat -> FS -> RunResult * FS.


End Nameless.

(** ** Default names of different times *)







(** ** A run with a working tool chain *)

Section Working.

Variable exec : list string -> option nat -> FS -> RunResult * FS.
Variable resolve : string -> Path.





End Working.

